(** * swanlake: the playback engine and the frame store

    A shallow embedding of [swanlake/[old]audio_stream.py] (class
    [AudioStream]) and of [swanlake/audio_data.py] (class [BaseAudioData]),
    followed by the properties of the specification that were checked
    against them.

    Python integers are [Z]; a frame is the list of its channel samples; a
    numpy array of frames is a list of frames.  Methods mutate [self] and may
    raise: they live in a state-and-exception monad over the object. *)

From Stdlib Require Import ZArith List Lia Bool QArith Qround.
From Stdlib Require Import Strings.Byte.
Import ListNotations.
Local Open Scope Z_scope.

(** ** Exceptions and the method monad *)

(** The exceptions that the two classes and the library calls they make can
    raise.  Messages are not modelled. *)
Inductive exn : Type :=
| ValueError
| TypeError
| OSError
| AttributeError
| ZeroDivisionError
| CallbackStop.

Inductive outcome (A : Type) : Type :=
| Returned (a : A)
| Raised (e : exn).
Arguments Returned {A} a.
Arguments Raised {A} e.

(** A method of an object of type [S] returning an [A]: the mutations made
    before an exception is raised are kept, as in Python. *)
Definition M (S A : Type) : Type := S -> outcome A * S.

Definition ret {S A} (a : A) : M S A := fun s => (Returned a, s).

Definition raise {S A} (e : exn) : M S A := fun s => (Raised e, s).

Definition bind {S A B} (m : M S A) (k : A -> M S B) : M S B :=
  fun s =>
    match m s with
    | (Returned a, s') => k a s'
    | (Raised e, s') => (Raised e, s')
    end.

Definition gets {S A} (f : S -> A) : M S A := fun s => (Returned (f s), s).

Definition modify {S} (f : S -> S) : M S unit := fun s => (Returned tt, f s).

Definition lift {S A} (o : outcome A) : M S A := fun s => (o, s).

(** An expression statement: the value is computed and dropped. *)
Definition discard {S A} (_ : A) : M S unit := ret tt.

Declare Scope method_scope.
Delimit Scope method_scope with method.
Notation "x <- m ;; k" := (bind m (fun x => k))
  (at level 61, m at next level, right associativity) : method_scope.
Notation "m ;; k" := (bind m (fun _ => k))
  (at level 61, right associativity) : method_scope.
Local Open Scope method_scope.

(** ** Python slicing

    [l[start:stop:step]] on a sequence of length [len], as CPython's
    [PySlice_AdjustIndices] computes it; numpy's basic slicing of the first
    axis follows the same rule. *)

Definition adjust_index (len step i : Z) : Z :=
  if i <? 0 then
    (if i + len <? 0 then (if step <? 0 then -1 else 0) else i + len)
  else if i >=? len then (if step <? 0 then len - 1 else len)
  else i.

Definition slice_length (start stop step : Z) : Z :=
  if step <? 0 then
    (if stop <? start then (start - stop - 1) / (- step) + 1 else 0)
  else
    (if start <? stop then (stop - start - 1) / step + 1 else 0).

(** The elements of [l] at the given indices, in the order of the indices. *)
Definition gather {A} (l : list A) (idxs : list Z) : list A :=
  flat_map (fun i => match nth_error l (Z.to_nat i) with
                     | Some x => [x]
                     | None => []
                     end) idxs.

Definition slice_indices (start step : Z) (n : nat) : list Z :=
  map (fun k => start + Z.of_nat k * step) (seq 0 n).

(** [stop = None] is Python's [None]: the slice runs to the end of the
    sequence in the direction of [step]. *)
Definition py_slice {A} (l : list A) (start : Z) (stop : option Z) (step : Z)
  : outcome (list A) :=
  if step =? 0 then Raised ValueError
  else
    let len := Z.of_nat (length l) in
    let start' := adjust_index len step start in
    let stop' := match stop with
                 | Some s => adjust_index len step s
                 | None => if step <? 0 then -1 else len
                 end in
    Returned (gather l (slice_indices start' step
                          (Z.to_nat (slice_length start' stop' step)))).

(** ** numpy assignments on the first axis *)

Definition frame : Type := list Z.

(** [dst[...] = src] where [dst] is a view of [length dst] rows: the rows of
    [src] are copied, a single row is broadcast, anything else is refused. *)
Definition np_assign_rows (dst src : list frame) : outcome (list frame) :=
  if (length src =? length dst)%nat then Returned src
  else match src with
       | [row] => Returned (repeat row (length dst))
       | _ => Raised ValueError
       end.

(** [view.fill(0)]: every sample of every row becomes 0. *)
Definition np_fill_zero (view : list frame) : list frame :=
  map (map (fun _ => 0)) view.

(** ** The playback engine: class [AudioStream] *)

(** Modelled from the spec: the class [AudioData] that [AudioStream] plays is
    imported from the package and is not among the sources.  The engine uses
    its [data] (the array of frames), [framerate], [framecount] and [len]; the
    specification calls the last two the total frame count, the number of
    frames of [data]. *)
Module AudioData.

Record t : Type := mk { data : list frame; framerate : Z }.

Definition framecount (a : t) : Z := Z.of_nat (length (data a)).

Definition len (a : t) : Z := framecount a.

End AudioData.

(** [sounddevice.OutputStream], as far as the engine observes it: the sample
    rate it was opened with and whether it is stopped, active, or inactive
    because its callback signalled completion (neither active nor stopped
    until [stop] or [abort] is called). *)
Module OutputStream.

Inductive status : Type := Stopped | Active | Finished.

Record t : Type := mk { samplerate : Z; state : status }.

Definition active (s : t) : bool :=
  match state s with Active => true | _ => false end.

Definition stopped (s : t) : bool :=
  match state s with Stopped => true | _ => false end.

End OutputStream.

Module AudioStream.

(** CONSTANTS *)
Definition DEFAULT_BLOCK_SIZE : Z := 1024.

Inductive mode : Type := MODE_STOPPED | MODE_PAUSED | MODE_PLAYING.

Definition mode_eqb (a b : mode) : bool :=
  match a, b with
  | MODE_STOPPED, MODE_STOPPED
  | MODE_PAUSED, MODE_PAUSED
  | MODE_PLAYING, MODE_PLAYING => true
  | _, _ => false
  end.

Record t : Type := mk {
  curframe : Z;
  _loop : bool;
  _direction : Z;
  _mode : mode;
  _stream : OutputStream.t;
  _audio : AudioData.t
}.

Definition set_curframe (v : Z) (self : t) : t :=
  mk v (_loop self) (_direction self) (_mode self) (_stream self)
     (_audio self).

Definition set_loop (v : bool) (self : t) : t :=
  mk (curframe self) v (_direction self) (_mode self) (_stream self)
     (_audio self).

Definition set_direction (v : Z) (self : t) : t :=
  mk (curframe self) (_loop self) v (_mode self) (_stream self)
     (_audio self).

Definition set_mode (v : mode) (self : t) : t :=
  mk (curframe self) (_loop self) (_direction self) v (_stream self)
     (_audio self).

Definition set_stream_state (v : OutputStream.status) (self : t) : t :=
  mk (curframe self) (_loop self) (_direction self) (_mode self)
     (OutputStream.mk (OutputStream.samplerate (_stream self)) v)
     (_audio self).

(** *** Properties *)

Definition framerate (self : t) : Z := OutputStream.samplerate (_stream self).

Definition audio (self : t) : AudioData.t := _audio self.

Definition loop (self : t) : bool := _loop self.

Definition loop_setter (new_val : bool) : M t unit :=
  modify (set_loop new_val).

Definition direction (self : t) : Z := _direction self.

Definition direction_setter (new_val : Z) : M t unit :=
  if negb (new_val =? 1) && negb (new_val =? -1) then raise ValueError
  else modify (set_direction new_val).

Definition reverse (self : t) : bool :=
  if direction self =? -1 then true else false.

Definition reverse_setter (new_val : bool) : M t unit :=
  direction_setter (if new_val then -1 else 1).

(** *** Seeking *)

Definition jump_to_frame (frame : Z) : M t unit :=
  a <- gets audio ;;
  if (frame <? 0) || (frame >? AudioData.framecount a) then raise ValueError
  else modify (set_curframe frame).

(** [math.floor(seconds * self.framerate)] *)
Definition jump (seconds : Q) : M t unit :=
  fr <- gets framerate ;;
  jump_to_frame (Qfloor (seconds * inject_Z fr)).

Definition jump_to_start : M t unit := jump_to_frame 0.

Definition jump_to_end : M t unit :=
  a <- gets _audio ;;
  jump_to_frame (AudioData.len a - 1).

(** *** The finish hook and the defaults *)

Definition _set_default_playback_state : M t unit :=
  jump_to_start ;;
  modify (set_mode MODE_STOPPED).

Definition _stop_playback_callback : M t unit :=
  m <- gets _mode ;;
  if negb (mode_eqb m MODE_PAUSED) then _set_default_playback_state
  else ret tt.

Definition _set_default_playback_props : M t unit :=
  loop_setter false ;;
  reverse_setter false.

(** *** The output stream's methods

    [stop] and [abort] leave the stream stopped; the stream calls its
    [finished_callback], here [_stop_playback_callback], when that takes it
    from active to inactive. *)

Definition stream_stop : M t unit :=
  s <- gets _stream ;;
  modify (set_stream_state OutputStream.Stopped) ;;
  if OutputStream.active s then _stop_playback_callback else ret tt.

Definition stream_abort : M t unit := stream_stop.

Definition stream_start : M t unit :=
  modify (set_stream_state OutputStream.Active).

(** *** Transport *)

Definition stop : M t unit :=
  s <- gets _stream ;;
  if OutputStream.active s then
    modify (set_mode MODE_STOPPED) ;;
    stream_stop
  else ret tt.

Definition pause : M t unit :=
  s <- gets _stream ;;
  if OutputStream.active s then
    modify (set_mode MODE_PAUSED) ;;
    stream_stop
  else ret tt.

Definition play : M t unit :=
  m <- gets _mode ;;
  (if mode_eqb m MODE_STOPPED then stream_abort else ret tt) ;;
  modify (set_mode MODE_PLAYING) ;;
  s <- gets _stream ;;
  if OutputStream.stopped s then
    r <- gets reverse ;;
    (if r then jump_to_end else ret tt) ;;
    stream_start
  else ret tt.

(** *** Construction

    [fr_override] is [None] or an integer; [None] and 0 are both falsy. *)
Definition __init__ (audiodata : AudioData.t) (loop reverse : bool)
    (fr_override : option Z) : outcome unit * t :=
  let framerate :=
    match fr_override with
    | Some fr => if fr =? 0 then AudioData.framerate audiodata else fr
    | None => AudioData.framerate audiodata
    end in
  let blank :=
    mk 0 false 1 MODE_STOPPED
       (OutputStream.mk framerate OutputStream.Stopped) audiodata in
  (_set_default_playback_state ;;
   loop_setter loop ;;
   reverse_setter reverse) blank.

(** *** The block-fill callback *)

(** The nested function [get_next_block]: the block of [slice_size] frames
    that starts at [start_frame] and runs in [direction], and the index of
    the frame the next block starts at. *)
Definition is_within_bounds (frame_array : list frame) (indx : Z) : bool :=
  if (0 <=? indx) && (indx <? Z.of_nat (length frame_array)) then true
  else false.

Definition get_next_block (frame_array : list frame)
    (direction start_frame slice_size : Z) : outcome (list frame * Z) :=
  let start := start_frame in
  let raw_end := start + slice_size * direction in
  let end_ := if is_within_bounds frame_array raw_end then Some raw_end
              else None in
  (* [raw_end if raw_end else ...] tests the truth value of the integer *)
  let end_frame_idx :=
    if negb (raw_end =? 0) then raw_end
    else if direction =? 1 then Z.of_nat (length frame_array)
    else 0 in
  match py_slice frame_array start end_ direction with
  | Returned block => Returned (block, end_frame_idx)
  | Raised e => Raised e
  end.

(** What one invocation leaves behind: the engine, the caller's buffer, and
    the exception that left the callback, if any ([CallbackStop] is the
    end-of-stream signal to the scheduler). *)
Record callback_result : Type := mk_result {
  cb_self : t;
  cb_outdata : list frame;
  cb_raised : option exn
}.

(** [block_size] is the class constant [self.DEFAULT_BLOCK_SIZE], which is
    also the block size the stream is opened with, so that [outdata] has
    [block_size] frames.  The diagnostic printed on [status.output_underflow]
    changes nothing and is left out. *)
Definition _next_block_callback_with (block_size : Z) (self : t)
    (outdata : list frame) : callback_result :=
  match get_next_block (AudioData.data (_audio self)) (_direction self)
          (curframe self) block_size with
  | Raised e => mk_result self outdata (Some e)
  | Returned (block_data, end_block_idx) =>
      let n := length block_data in
      if (n <? length outdata)%nat then
        (* outdata[:len(block_data)] = block_data *)
        match np_assign_rows (firstn n outdata) block_data with
        | Raised e => mk_result self outdata (Some e)
        | Returned front =>
            let outdata1 := front ++ skipn n outdata in
            (* outdata[len(block_data):].fill(0) *)
            let outdata2 :=
              firstn n outdata1 ++ np_fill_zero (skipn n outdata1) in
            if loop self then
              match (if reverse self then jump_to_end else jump_to_start) self
              with
              | (Returned _, self') => mk_result self' outdata2 None
              | (Raised e, self') => mk_result self' outdata2 (Some e)
              end
            else mk_result self outdata2 (Some CallbackStop)
        end
      else
        (* outdata[:] = block_data *)
        match np_assign_rows outdata block_data with
        | Raised e => mk_result self outdata (Some e)
        | Returned outdata1 =>
            mk_result (set_curframe end_block_idx self) outdata1 None
        end
  end.

Definition _next_block_callback : t -> list frame -> callback_result :=
  _next_block_callback_with DEFAULT_BLOCK_SIZE.

(** *** The invariant of the position *)

Definition curframe_in_bounds (self : t) : Prop :=
  0 <= curframe self <= AudioData.framecount (audio self).

(** A method keeps the position within bounds, however it ends. *)
Definition preserves_bounds {A} (m : M t A) : Prop :=
  forall self, curframe_in_bounds self -> curframe_in_bounds (snd (m self)).

End AudioStream.

(** ** The frame store: class [BaseAudioData] *)

(** The values the frame store applies Python's dynamically typed [//] and
    [len] to. *)
Inductive pyval : Type :=
| PyInt (z : Z)
| PyBytes (b : list byte).

(** [a // b]: floor division of integers; [bytes] has no such operator. *)
Definition py_floordiv (a b : pyval) : outcome pyval :=
  match a, b with
  | PyInt x, PyInt y =>
      if y =? 0 then Raised ZeroDivisionError else Returned (PyInt (x / y))
  | _, _ => Raised TypeError
  end.

(** [len(v)]: integers have no length. *)
Definition py_len (v : pyval) : outcome Z :=
  match v with
  | PyBytes b => Returned (Z.of_nat (length b))
  | PyInt _ => Raised TypeError
  end.

(** A binary file object ([typing.BinaryIO]) opened for reading: its content
    and its cursor, a byte offset.  Seeking before the first byte is refused
    with [OSError]; seeking past the last one is allowed, and reading there
    yields nothing. *)
Module BinaryIO.

Record t : Type := mk { content : list byte; cursor : Z }.

Definition read (size : Z) : M t (list byte) :=
  fun f =>
    let rest := skipn (Z.to_nat (cursor f)) (content f) in
    let chunk := if size <? 0 then rest else firstn (Z.to_nat size) rest in
    (Returned chunk, mk (content f) (cursor f + Z.of_nat (length chunk))).

Definition seek (offset whence : Z) : M t Z :=
  fun f =>
    let base :=
      if whence =? 0 then Some 0
      else if whence =? 1 then Some (cursor f)
      else if whence =? 2 then Some (Z.of_nat (length (content f)))
      else None in
    match base with
    | None => (Raised ValueError, f)
    | Some b =>
        if b + offset <? 0 then (Raised OSError, f)
        else (Returned (b + offset), mk (content f) (b + offset))
    end.


End BinaryIO.

(** A numpy array of frames as the frame store builds it: rows of samples,
    each sample the bytes it is stored in. *)
Definition ndarray : Type := list (list (list byte)).

Fixpoint chunks {A} (count size : nat) (l : list A) : list (list A) :=
  match count with
  | O => []
  | S count' => firstn size l :: chunks count' size (skipn size l)
  end.

Inductive ndarray_keyword : Type :=
| kw_shape | kw_dtype | kw_buffer | kw_offset | kw_strides | kw_order
| kw_channels.

(** [np.ndarray(shape=(rows, cols), dtype=<integer of width bytes>,
    buffer=...)] called with the given keywords: a keyword that [ndarray] has
    no parameter for is refused with [TypeError], and so is a buffer that is
    too small for the shape. *)
Definition np_ndarray (keywords : list ndarray_keyword) (rows cols width : Z)
    (buffer : list byte) : outcome ndarray :=
  if existsb (fun k => match k with kw_channels => true | _ => false end)
       keywords
  then Raised TypeError
  else if (rows <? 0) || (cols <? 0) then Raised ValueError
  else if Z.of_nat (length buffer) <? rows * cols * width then Raised TypeError
  else
    let samples := chunks (Z.to_nat (rows * cols)) (Z.to_nat width) buffer in
    Returned (chunks (Z.to_nat rows) (Z.to_nat cols) samples).

Module BaseAudioData.

(** CONSTANTS *)
Definition _FILEOBJ_SEEK_ABSOLUTE : Z := 0.
Definition _FILEOBJ_SEEK_RELATIVE : Z := 1.

Record t : Type := mk {
  _source : BinaryIO.t;
  _position : Z;      (* frame number *)
  _framesize : Z;     (* in bytes *)
  _channels : Z;
  _samplewidth : Z;   (* in bytes *)
  _framerate : Z;
  _framecount : Z
}.

Definition set_source (v : BinaryIO.t) (self : t) : t :=
  mk v (_position self) (_framesize self) (_channels self)
     (_samplewidth self) (_framerate self) (_framecount self).

Definition set_position (v : Z) (self : t) : t :=
  mk (_source self) v (_framesize self) (_channels self)
     (_samplewidth self) (_framerate self) (_framecount self).

Definition __init__ (source : BinaryIO.t)
    (channels samplewidth framerate framecount : Z) : t :=
  mk source 0 (samplewidth * channels) channels samplewidth framerate
     framecount.

(** *** Properties *)

Definition source (self : t) : BinaryIO.t := _source self.
Definition position (self : t) : Z := _position self.
Definition framesize (self : t) : Z := _framesize self.
Definition channels (self : t) : Z := _channels self.
Definition samplewidth (self : t) : Z := _samplewidth self.
Definition bitdepth (self : t) : Z := samplewidth self * 8.
Definition framerate (self : t) : Z := _framerate self.
Definition framecount (self : t) : Z := _framecount self.

(** [getattr(np, f"int{self.bitdepth}")]: numpy has [int8], [int16], [int32]
    and [int64]; the type is represented by its width in bytes. *)
Definition datatype : M t Z :=
  b <- gets bitdepth ;;
  if (b =? 8) || (b =? 16) || (b =? 32) || (b =? 64) then ret (b / 8)
  else raise AttributeError.

(** A method of [self.source] run on the store's file object. *)
Definition on_source {A} (m : M BinaryIO.t A) : M t A :=
  fun self =>
    let (r, f) := m (source self) in (r, set_source f self).

(** *** Low-level methods *)

Definition _move_fileobj_cursor (frame_offset mode : Z) : M t unit :=
  fs <- gets framesize ;;
  (* calculate the byte position of the frame offset *)
  let new_pos := frame_offset * fs in
  fc <- gets framecount ;;
  (* the exception is constructed in an expression statement, not raised *)
  (if (new_pos <? 0) || (new_pos >=? fc) then discard ValueError
   else ret tt) ;;
  on_source (BinaryIO.seek new_pos mode) ;;
  ret tt.


Definition _create_frame_array (byte_data : list byte) : M t ndarray :=
  (* shape = (len(byte_data // self.framesize), self.channels) *)
  fs <- gets framesize ;;
  q <- lift (py_floordiv (PyBytes byte_data) (PyInt fs)) ;;
  rows <- lift (py_len q) ;;
  cols <- gets channels ;;
  (* channels = self.channels *)
  _ <- gets channels ;;
  (* dtype = self.datatype *)
  width <- datatype ;;
  lift (np_ndarray [kw_shape; kw_channels; kw_dtype; kw_buffer]
          rows cols width byte_data).

Definition _get_chunk_from_infront (chunk_size : Z) : M t (list byte) :=
  on_source (BinaryIO.read chunk_size).

Definition _get_chunk_from_behind (chunk_size : Z) : M t (list byte) :=
  p <- gets position ;;
  let starting_frame := p - chunk_size in
  let '(chunk_size, starting_frame) :=
    if starting_frame <? 0 then (chunk_size - starting_frame, 0)
    else (chunk_size, starting_frame) in
  _move_fileobj_cursor starting_frame _FILEOBJ_SEEK_ABSOLUTE ;;
  chunk <- on_source (BinaryIO.read chunk_size) ;;
  p' <- gets position ;;
  _move_fileobj_cursor p' _FILEOBJ_SEEK_ABSOLUTE ;;
  ret chunk.

(** *** High-level methods *)

Definition seek (frame_offset : Z) : M t unit :=
  _move_fileobj_cursor frame_offset _FILEOBJ_SEEK_RELATIVE.

Definition jump (frame_offset : Z) : M t unit :=
  _move_fileobj_cursor frame_offset _FILEOBJ_SEEK_ABSOLUTE.

Definition read (frames : Z) : M t ndarray :=
  chunk <- _get_chunk_from_infront frames ;;
  _create_frame_array chunk.

Definition read_left (frames : Z) : M t ndarray :=
  chunk <- _get_chunk_from_behind frames ;;
  _create_frame_array chunk.

End BaseAudioData.

(** ** Concrete objects used below *)

Module Examples.

(** Eight stereo frames; frame [i] holds the samples [10 i] and [10 i + 1]. *)
Definition frames8 : list frame :=
  [[0; 1]; [10; 11]; [20; 21]; [30; 31]; [40; 41]; [50; 51]; [60; 61];
   [70; 71]].

Definition audio8 : AudioData.t := AudioData.mk frames8 44100.

(** An engine on [audio8], playing in reverse from frame 5. *)
Definition reverse_at_5 : AudioStream.t :=
  AudioStream.mk 5 false (-1) AudioStream.MODE_PLAYING
    (OutputStream.mk 44100 OutputStream.Active) audio8.

(** A buffer of three stereo frames with stale content. *)
Definition buffer3 : list frame := [[7; 7]; [8; 8]; [9; 9]].

(** An audio without frames, and a looping engine on it that was started
    forward and then set to play in reverse. *)
Definition audio0 : AudioData.t := AudioData.mk [] 44100.

Definition empty_reverse_loop : AudioStream.t :=
  let built := snd (AudioStream.__init__ audio0 true false None) in
  let playing := snd (AudioStream.play built) in
  snd (AudioStream.reverse_setter true playing).

(** A looping engine on [audio8], playing forward from frame 6. *)
Definition forward_loop_at_6 : AudioStream.t :=
  AudioStream.mk 6 true 1 AudioStream.MODE_PLAYING
    (OutputStream.mk 44100 OutputStream.Active) audio8.

(** The same engine without the loop flag, and a looping engine on [audio8]
    playing in reverse from frame 1. *)
Definition forward_at_6 : AudioStream.t :=
  AudioStream.set_loop false forward_loop_at_6.

Definition reverse_loop_at_1 : AudioStream.t :=
  AudioStream.mk 1 true (-1) AudioStream.MODE_PLAYING
    (OutputStream.mk 44100 OutputStream.Active) audio8.

(** A mono audio of exactly one block, [DEFAULT_BLOCK_SIZE] frames; frame
    [i] holds the sample [i]. *)
Definition audio1024 : AudioData.t :=
  AudioData.mk (map (fun i => [Z.of_nat i]) (seq 0 1024)) 44100.

Definition buffer1024 : list frame := repeat [0] 1024.

(** The engine built on [audio1024] for reverse playback. *)
Definition reverse1024 : AudioStream.t :=
  snd (AudioStream.__init__ audio1024 false true None).

(** A frame store of ten mono frames of two bytes each: the bytes [0] to
    [19]. *)
Definition bytes20 : list byte :=
  [x00; x01; x02; x03; x04; x05; x06; x07; x08; x09;
   x0a; x0b; x0c; x0d; x0e; x0f; x10; x11; x12; x13].

Definition store10 : BaseAudioData.t :=
  BaseAudioData.__init__ (BinaryIO.mk bytes20 0) 1 2 44100 10.

(** A frame store of ten mono frames of one byte each, so that frame and
    byte offsets coincide: the bytes [0] to [9]. *)
Definition store10_mono8 : BaseAudioData.t :=
  BaseAudioData.__init__ (BinaryIO.mk (firstn 10 bytes20) 0) 1 1 44100 10.

(** A paused engine, and a stopped one with a stale position. *)
Definition paused_at_5 : AudioStream.t :=
  AudioStream.mk 5 false (-1) AudioStream.MODE_PAUSED
    (OutputStream.mk 44100 OutputStream.Stopped) audio8.

Definition playing_at_5 : AudioStream.t :=
  AudioStream.mk 5 true 1 AudioStream.MODE_PLAYING
    (OutputStream.mk 44100 OutputStream.Finished) audio8.

End Examples.

(** ** Frame conditions *)

Module Unchanged.

(** A method of the engine that leaves the loop flag, the direction and the
    audio as they were, however it ends. *)
Definition keeps_settings {A} (m : M AudioStream.t A) : Prop :=
  forall self,
    AudioStream._loop (snd (m self)) = AudioStream._loop self /\
    AudioStream._direction (snd (m self)) = AudioStream._direction self /\
    AudioStream._audio (snd (m self)) = AudioStream._audio self.

(** A method of the frame store that changes nothing but the cursor of the
    file object, however it ends: position, geometry and content stay. *)
Definition moves_only_cursor {A} (m : M BaseAudioData.t A) : Prop :=
  forall self,
    exists cursor,
      snd (m self)
      = BaseAudioData.set_source
          (BinaryIO.mk (BinaryIO.content (BaseAudioData.source self)) cursor)
          self.

End Unchanged.

(** * Properties *)

(** ** Running methods *)

Ltac run :=
  unfold discard, bind, gets, modify, ret, raise, lift in *; cbn beta iota.

(** ** Slicing lemmas *)

Section Slicing.

Context {A : Type}.
Implicit Types (l : list A) (idxs : list Z).

Lemma adjust_index_in_range (len step i : Z) :
  0 <= i < len -> adjust_index len step i = i.
Proof.
  intros Hi. unfold adjust_index.
  destruct (i <? 0) eqn:E1; [apply Z.ltb_lt in E1; lia|].
  destruct (i >=? len) eqn:E2; [|reflexivity].
  rewrite Z.geb_leb in E2. apply Z.leb_le in E2. lia.
Qed.

Lemma gather_length l idxs :
  Forall (fun i => 0 <= i < Z.of_nat (length l)) idxs ->
  length (gather l idxs) = length idxs.
Proof.
  induction 1 as [|i idxs Hi _ IH]; [reflexivity|].
  unfold gather in *. cbn [flat_map]. rewrite length_app, IH.
  destruct (nth_error l (Z.to_nat i)) eqn:E; [reflexivity|].
  apply nth_error_None in E. lia.
Qed.

Lemma slice_indices_length (start step : Z) (n : nat) :
  length (slice_indices start step n) = n.
Proof. unfold slice_indices. now rewrite length_map, length_seq. Qed.

Lemma slice_indices_backward_bounds (start : Z) (n : nat) (len : Z) :
  Z.of_nat n <= start + 1 -> start < len ->
  Forall (fun i => 0 <= i < len) (slice_indices start (-1) n).
Proof.
  intros Hn Hs. unfold slice_indices. apply Forall_forall.
  intros i Hi. apply in_map_iff in Hi. destruct Hi as [k [<- Hk]].
  apply in_seq in Hk. lia.
Qed.

(** A reverse slice that starts at [n - 1] and is open-ended has [n]
    elements. *)
Lemma py_slice_backward_to_start l (n : Z) :
  0 < n <= Z.of_nat (length l) ->
  exists block,
    py_slice l (n - 1) None (-1) = Returned block /\
    Z.of_nat (length block) = n.
Proof.
  intros Hn. unfold py_slice. cbn [Z.eqb Z.ltb Z.compare].
  rewrite adjust_index_in_range by lia.
  eexists. split; [reflexivity|].
  assert (Hlen : slice_length (n - 1) (-1) (-1) = n).
  { unfold slice_length. cbn [Z.ltb Z.compare Z.opp].
    destruct (-1 <? n - 1) eqn:E.
    - rewrite Z.div_1_r. lia.
    - apply Z.ltb_ge in E. lia. }
  rewrite Hlen, gather_length.
  - rewrite slice_indices_length. lia.
  - apply slice_indices_backward_bounds; lia.
Qed.

End Slicing.

(** ** The playback engine *)

Module PlaybackEngine.

Import AudioStream.

Lemma framecount_nonneg (a : AudioData.t) : 0 <= AudioData.framecount a.
Proof. unfold AudioData.framecount. lia. Qed.

(** *** Seeking *)

Lemma jump_to_frame_accepts (frame : Z) (self : t) :
  0 <= frame <= AudioData.framecount (audio self) ->
  jump_to_frame frame self = (Returned tt, set_curframe frame self).
Proof.
  intros H. unfold jump_to_frame. run.
  destruct (frame <? 0) eqn:E1; [apply Z.ltb_lt in E1; lia|].
  destruct (frame >? AudioData.framecount (audio self)) eqn:E2;
    [|reflexivity].
  rewrite Z.gtb_ltb in E2. apply Z.ltb_lt in E2. lia.
Qed.

Lemma jump_to_frame_rejects (frame : Z) (self : t) :
  frame < 0 \/ AudioData.framecount (audio self) < frame ->
  jump_to_frame frame self = (Raised ValueError, self).
Proof.
  intros H. unfold jump_to_frame. run.
  destruct (frame <? 0) eqn:E1; [reflexivity|].
  destruct (frame >? AudioData.framecount (audio self)) eqn:E2;
    [reflexivity|].
  apply Z.ltb_ge in E1. rewrite Z.gtb_ltb in E2. apply Z.ltb_ge in E2. lia.
Qed.

Lemma jump_to_start_ok (self : t) :
  jump_to_start self = (Returned tt, set_curframe 0 self).
Proof.
  apply jump_to_frame_accepts. pose proof (framecount_nonneg (audio self)).
  lia.
Qed.

Lemma jump_to_end_ok (self : t) :
  AudioData.data (_audio self) <> [] ->
  jump_to_end self =
  (Returned tt, set_curframe (AudioData.len (_audio self) - 1) self).
Proof.
  intros Hne. unfold jump_to_end. run.
  apply jump_to_frame_accepts.
  unfold AudioData.len, audio, AudioData.framecount.
  destruct (AudioData.data (_audio self)); [congruence|].
  cbn [length]. lia.
Qed.

(** Every seek leaves the position within bounds, whether it is accepted or
    refused. *)
Lemma jump_to_frame_in_bounds (frame : Z) (self : t) :
  curframe_in_bounds self ->
  curframe_in_bounds (snd (jump_to_frame frame self)).
Proof.
  intros Hinv.
  destruct (Z_lt_dec frame 0) as [Hneg|Hpos].
  - rewrite jump_to_frame_rejects by lia. exact Hinv.
  - destruct (Z_lt_dec (AudioData.framecount (audio self)) frame) as [Hbig|Hin].
    + rewrite jump_to_frame_rejects by lia. exact Hinv.
    + rewrite jump_to_frame_accepts by lia.
      unfold curframe_in_bounds. cbn. unfold audio in *. lia.
Qed.

Lemma jump_in_bounds (seconds : Q) (self : t) :
  curframe_in_bounds self -> curframe_in_bounds (snd (jump seconds self)).
Proof. intros H. unfold jump. run. now apply jump_to_frame_in_bounds. Qed.

Lemma jump_to_start_in_bounds (self : t) :
  curframe_in_bounds self -> curframe_in_bounds (snd (jump_to_start self)).
Proof. apply jump_to_frame_in_bounds. Qed.

Lemma jump_to_end_in_bounds (self : t) :
  curframe_in_bounds self -> curframe_in_bounds (snd (jump_to_end self)).
Proof. intros H. unfold jump_to_end. run. now apply jump_to_frame_in_bounds. Qed.

(** *** The transport operations keep the position within bounds *)

Lemma preserves_ret {A} (a : A) : preserves_bounds (ret a).
Proof. intros self H. exact H. Qed.

Lemma preserves_gets {A} (f : t -> A) : preserves_bounds (gets f).
Proof. intros self H. exact H. Qed.

Lemma preserves_bind {A B} (m : M t A) (k : A -> M t B) :
  preserves_bounds m -> (forall a, preserves_bounds (k a)) ->
  preserves_bounds (bind m k).
Proof.
  intros Hm Hk self H. unfold bind.
  specialize (Hm self H). destruct (m self) as [[a|e] self']; cbn in *.
  - now apply Hk.
  - exact Hm.
Qed.

Lemma preserves_if {A} (b : bool) (m1 m2 : M t A) :
  preserves_bounds m1 -> preserves_bounds m2 ->
  preserves_bounds (if b then m1 else m2).
Proof. now destruct b. Qed.

Lemma preserves_set_mode (v : mode) : preserves_bounds (modify (set_mode v)).
Proof. intros self H. exact H. Qed.

Lemma preserves_set_stream_state (v : OutputStream.status) :
  preserves_bounds (modify (set_stream_state v)).
Proof. intros self H. exact H. Qed.

Lemma preserves_jump_to_frame (frame : Z) :
  preserves_bounds (jump_to_frame frame).
Proof. intros self. apply jump_to_frame_in_bounds. Qed.

Lemma preserves_jump_to_end : preserves_bounds jump_to_end.
Proof. intros self. apply jump_to_end_in_bounds. Qed.

Create HintDb bounds.
#[local] Hint Resolve preserves_ret preserves_gets preserves_set_mode
  preserves_set_stream_state preserves_jump_to_frame preserves_jump_to_end
  : bounds.
#[local] Hint Extern 2 (preserves_bounds (bind _ _)) =>
  apply preserves_bind; [|intro] : bounds.
#[local] Hint Extern 2 (preserves_bounds (if _ then _ else _)) =>
  apply preserves_if : bounds.

Lemma preserves_finish_hook : preserves_bounds _stop_playback_callback.
Proof.
  unfold _stop_playback_callback, _set_default_playback_state, jump_to_start.
  auto 10 with bounds.
Qed.

Lemma preserves_stream_stop : preserves_bounds stream_stop.
Proof.
  pose proof preserves_finish_hook. unfold stream_stop. auto 10 with bounds.
Qed.

Lemma stop_in_bounds : preserves_bounds stop.
Proof.
  pose proof preserves_stream_stop. unfold stop. auto 10 with bounds.
Qed.

Lemma pause_in_bounds : preserves_bounds pause.
Proof.
  pose proof preserves_stream_stop. unfold pause. auto 10 with bounds.
Qed.

Lemma play_in_bounds : preserves_bounds play.
Proof.
  pose proof preserves_stream_stop.
  unfold play, stream_abort, stream_start. auto 12 with bounds.
Qed.

(** *** The direction *)

(** C8: setting the direction to a value other than +1 and -1 raises
    [ValueError] and leaves the whole engine as it was; setting it to +1 or
    to -1 returns and stores that value, the rest of the engine unchanged. *)
Theorem direction_setter_spec (self : t) (v : Z) :
  (v <> 1 -> v <> -1 ->
   direction_setter v self = (Raised ValueError, self)) /\
  (v = 1 \/ v = -1 ->
   direction_setter v self = (Returned tt, set_direction v self) /\
   direction (set_direction v self) = v /\
   curframe (set_direction v self) = curframe self /\
   loop (set_direction v self) = loop self /\
   _mode (set_direction v self) = _mode self).
Proof.
  split.
  - intros H1 H2. unfold direction_setter.
    apply Z.eqb_neq in H1, H2. now rewrite H1, H2.
  - intros [-> | ->]; repeat split.
Qed.

Lemma direction_setter_spec_witness :
  direction_setter 0 Examples.reverse_at_5
  = (Raised ValueError, Examples.reverse_at_5) /\
  direction (snd (direction_setter 1 Examples.reverse_at_5)) = 1.
Proof.
  split.
  - apply (proj1 (direction_setter_spec Examples.reverse_at_5 0)); lia.
  - destruct (proj2 (direction_setter_spec Examples.reverse_at_5 1)) as [E _].
    + left; reflexivity.
    + rewrite E. reflexivity.
Defined.

(** *** The finish hook *)

(** C9: run with a mode other than paused, the finish hook returns with the
    position at frame 0 and the mode stopped (direction and loop flag as they
    were); run with the mode paused, it changes nothing, so position and
    direction are untouched. *)
Theorem finish_hook_spec (self : t) :
  (_mode self <> MODE_PAUSED ->
   _stop_playback_callback self
   = (Returned tt, set_mode MODE_STOPPED (set_curframe 0 self)) /\
   curframe (snd (_stop_playback_callback self)) = 0 /\
   _mode (snd (_stop_playback_callback self)) = MODE_STOPPED) /\
  (_mode self = MODE_PAUSED ->
   _stop_playback_callback self = (Returned tt, self) /\
   curframe (snd (_stop_playback_callback self)) = curframe self /\
   direction (snd (_stop_playback_callback self)) = direction self).
Proof.
  assert (Hreset : _set_default_playback_state self
                   = (Returned tt, set_mode MODE_STOPPED (set_curframe 0 self))).
  { unfold _set_default_playback_state. run.
    now rewrite jump_to_start_ok. }
  unfold _stop_playback_callback. run. split.
  - intros Hm.
    assert (E : mode_eqb (_mode self) MODE_PAUSED = false)
      by (destruct (_mode self); [reflexivity|congruence|reflexivity]).
    rewrite E. cbn [negb]. rewrite Hreset. repeat split.
  - intros Hm. rewrite Hm. repeat split.
Qed.

Lemma finish_hook_spec_witness :
  curframe (snd (_stop_playback_callback Examples.playing_at_5)) = 0 /\
  curframe (snd (_stop_playback_callback Examples.paused_at_5)) = 5.
Proof.
  split.
  - apply (proj1 (finish_hook_spec Examples.playing_at_5)).
    cbn. discriminate.
  - destruct (proj2 (finish_hook_spec Examples.paused_at_5)) as [_ [E _]].
    + reflexivity.
    + rewrite E. reflexivity.
Defined.

(** *** Transport *)

(** C10: called while the output stream is not active, [pause] returns
    without changing anything: mode, position, direction, loop flag and
    stream are as before. *)
Theorem pause_inactive_noop (self : t) :
  OutputStream.active (_stream self) = false ->
  pause self = (Returned tt, self).
Proof. intros H. unfold pause. run. now rewrite H. Qed.

Lemma pause_inactive_noop_witness :
  pause Examples.paused_at_5 = (Returned tt, Examples.paused_at_5) /\
  _mode (snd (pause (snd (__init__ Examples.audio8 false false None))))
  = MODE_STOPPED.
Proof.
  split.
  - apply pause_inactive_noop. reflexivity.
  - rewrite pause_inactive_noop; reflexivity.
Defined.

(** *** The block-fill callback *)

(** The frames written over the front of the buffer when a block is shorter
    than the buffer. *)
Lemma np_assign_front (outdata block : list frame) :
  (length block < length outdata)%nat ->
  np_assign_rows (firstn (length block) outdata) block = Returned block.
Proof.
  intros H. unfold np_assign_rows.
  rewrite length_firstn, Nat.min_l by lia. now rewrite Nat.eqb_refl.
Qed.

(** C2, as the code has it: when the extracted run is shorter than the
    buffer, the run is copied to the front of the buffer and the rest of the
    buffer is filled with zeros; then a non-looping engine raises
    [CallbackStop] and is otherwise unchanged, a looping engine playing
    forward moves to frame 0 and returns normally, and a looping engine
    playing in reverse on an audio with at least one frame moves to the last
    frame and returns normally. *)
Theorem underrun_block (block_size : Z) (self : t) (outdata block : list frame)
    (next : Z) :
  get_next_block (AudioData.data (_audio self)) (_direction self)
    (curframe self) block_size = Returned (block, next) ->
  (length block < length outdata)%nat ->
  let padded := block ++ np_fill_zero (skipn (length block) outdata) in
  (loop self = false ->
   _next_block_callback_with block_size self outdata
   = mk_result self padded (Some CallbackStop)) /\
  (loop self = true -> reverse self = false ->
   _next_block_callback_with block_size self outdata
   = mk_result (set_curframe 0 self) padded None) /\
  (loop self = true -> reverse self = true ->
   AudioData.data (_audio self) <> [] ->
   _next_block_callback_with block_size self outdata
   = mk_result (set_curframe (AudioData.framecount (audio self) - 1) self)
       padded None).
Proof.
  intros Hblock Hshort padded.
  assert (Hpad : firstn (length block) (block ++ skipn (length block) outdata)
                 ++ np_fill_zero
                      (skipn (length block)
                         (block ++ skipn (length block) outdata))
                 = padded).
  { unfold padded.
    rewrite firstn_app, Nat.sub_diag, firstn_all. cbn [firstn].
    rewrite app_nil_r, skipn_app, Nat.sub_diag, skipn_all. reflexivity. }
  unfold _next_block_callback_with. rewrite Hblock.
  apply Nat.ltb_lt in Hshort. rewrite Hshort. apply Nat.ltb_lt in Hshort.
  rewrite np_assign_front by assumption. cbv zeta. rewrite Hpad.
  repeat split.
  - intros Hl. now rewrite Hl.
  - intros Hl Hr. now rewrite Hl, Hr, jump_to_start_ok.
  - intros Hl Hr Hne. now rewrite Hl, Hr, jump_to_end_ok.
Qed.

Lemma underrun_block_witness :
  _next_block_callback_with 3 Examples.forward_at_6 Examples.buffer3
  = mk_result Examples.forward_at_6 [[60; 61]; [70; 71]; [0; 0]]
      (Some CallbackStop) /\
  _next_block_callback_with 3 Examples.forward_loop_at_6 Examples.buffer3
  = mk_result (set_curframe 0 Examples.forward_loop_at_6)
      [[60; 61]; [70; 71]; [0; 0]] None /\
  _next_block_callback_with 3 Examples.reverse_loop_at_1 Examples.buffer3
  = mk_result (set_curframe 7 Examples.reverse_loop_at_1)
      [[10; 11]; [0; 1]; [0; 0]] None.
Proof.
  split; [|split].
  - refine (proj1 (underrun_block 3 Examples.forward_at_6 Examples.buffer3
                     [[60; 61]; [70; 71]] 9 _ _) _).
    + reflexivity.
    + cbn. lia.
    + reflexivity.
  - refine (proj1 (proj2 (underrun_block 3 Examples.forward_loop_at_6
                            Examples.buffer3 [[60; 61]; [70; 71]] 9 _ _))
              _ _).
    + reflexivity.
    + cbn. lia.
    + reflexivity.
    + reflexivity.
  - refine (proj2 (proj2 (underrun_block 3 Examples.reverse_loop_at_1
                            Examples.buffer3 [[10; 11]; [0; 1]] (-2) _ _))
              _ _ _).
    + reflexivity.
    + cbn. lia.
    + reflexivity.
    + reflexivity.
    + cbn. discriminate.
Defined.

(** C2 as stated fails on an audio without frames: the run is empty, hence
    shorter than the buffer, the engine loops and plays in reverse, and the
    jump to the last frame, frame -1, is refused: the callback is left by a
    [ValueError]. *)
Lemma underrun_loop_reverse_empty_audio :
  let self := Examples.empty_reverse_loop in
  let result := _next_block_callback_with 3 self Examples.buffer3 in
  get_next_block (AudioData.data (_audio self)) (_direction self)
    (curframe self) 3 = Returned ([], -3) /\
  loop self = true /\ reverse self = true /\
  cb_raised result = Some ValueError /\
  ~ (cb_raised result = None /\
     curframe (cb_self result) = AudioData.framecount (audio self) - 1).
Proof.
  cbv zeta. repeat split; try reflexivity.
  intros [H _]. vm_compute in H. discriminate.
Qed.

(** The block of three frames taken in reverse from frame 5. *)
Lemma get_next_block_reverse_from_5 (f0 f1 f2 f3 f4 f5 f6 f7 : frame)
    (rest : list frame) :
  get_next_block (f0 :: f1 :: f2 :: f3 :: f4 :: f5 :: f6 :: f7 :: rest)
    (-1) 5 3
  = Returned ([f5; f4; f3], 2).
Proof.
  unfold get_next_block, is_within_bounds, py_slice.
  change (5 + 3 * -1) with 2.
  set (len := Z.of_nat (length _)).
  assert (Hlen : 8 <= len) by (subst len; cbn [length]; lia).
  assert (E : (2 <? len) = true) by (apply Z.ltb_lt; lia).
  rewrite E. cbn [Z.leb Z.compare andb Z.eqb negb Z.ltb].
  rewrite !adjust_index_in_range by lia.
  reflexivity.
Qed.

(** C1, as the code has it: in reverse from frame 5 with a block of three
    frames on an audio of at least eight, the buffer receives the frames 5,
    4 and 3 in that order, each with its samples in their original order,
    and the position becomes 2. *)
Theorem reverse_block_from_5 (self : t) (outdata : list frame)
    (f0 f1 f2 f3 f4 f5 f6 f7 : frame) (rest : list frame) :
  _direction self = -1 ->
  curframe self = 5 ->
  length outdata = 3%nat ->
  AudioData.data (_audio self)
  = f0 :: f1 :: f2 :: f3 :: f4 :: f5 :: f6 :: f7 :: rest ->
  _next_block_callback_with 3 self outdata
  = mk_result (set_curframe 2 self) [f5; f4; f3] None.
Proof.
  intros Hdir Hcur Hout Hdata. unfold _next_block_callback_with.
  rewrite Hdata, Hdir, Hcur, get_next_block_reverse_from_5.
  unfold np_assign_rows. rewrite Hout. reflexivity.
Qed.

Lemma reverse_block_from_5_witness :
  _next_block_callback_with 3 Examples.reverse_at_5 Examples.buffer3
  = mk_result (set_curframe 2 Examples.reverse_at_5)
      [[50; 51]; [40; 41]; [30; 31]] None.
Proof.
  apply (reverse_block_from_5 Examples.reverse_at_5 Examples.buffer3
           [0; 1] [10; 11] [20; 21] [30; 31] [40; 41] [50; 51] [60; 61]
           [70; 71] []); reflexivity.
Defined.

(** C1 as stated fails: on the eight frames of [frames8] the buffer does not
    receive the frames 2, 3 and 4. *)
Lemma reverse_block_is_not_frames_2_3_4 :
  let result :=
    _next_block_callback_with 3 Examples.reverse_at_5 Examples.buffer3 in
  _direction Examples.reverse_at_5 = -1 /\
  curframe Examples.reverse_at_5 = 5 /\
  length (AudioData.data (audio Examples.reverse_at_5)) = 8%nat /\
  ~ (cb_outdata result = [[20; 21]; [30; 31]; [40; 41]] /\
     curframe (cb_self result) = 2).
Proof.
  cbv zeta. repeat split. intros [H _]. vm_compute in H. discriminate.
Qed.

(** A full block taken in reverse that ends on the first frame leaves the
    position at -1: the next position is [raw_end] whenever that is not
    zero, in bounds or not. *)
Lemma reverse_block_reaching_start (block_size : Z) (self : t)
    (outdata : list frame) :
  0 < block_size <= AudioData.framecount (audio self) ->
  _direction self = -1 ->
  curframe self = block_size - 1 ->
  Z.of_nat (length outdata) = block_size ->
  exists block,
    _next_block_callback_with block_size self outdata
    = mk_result (set_curframe (-1) self) block None.
Proof.
  intros Hn Hdir Hcur Hout.
  unfold AudioData.framecount, audio in Hn.
  destruct (py_slice_backward_to_start (AudioData.data (_audio self))
              block_size Hn)
    as [block [Hslice Hlen]].
  exists block.
  unfold _next_block_callback_with, get_next_block, is_within_bounds.
  rewrite Hdir, Hcur.
  replace (block_size - 1 + block_size * -1) with (-1) by lia.
  cbn [Z.leb Z.compare andb Z.eqb negb]. rewrite Hslice.
  assert (E : length block = length outdata) by lia.
  rewrite E, Nat.ltb_irrefl. unfold np_assign_rows.
  now rewrite E, Nat.eqb_refl.
Qed.

(** C3 fails on the code: an engine built for reverse playback on an audio of
    exactly one block is within bounds after [play], at the last frame, and
    the first callback delivers the whole audio and leaves the position at
    -1. *)
Theorem reverse_playback_leaves_curframe_negative :
  let playing := snd (play Examples.reverse1024) in
  let result := _next_block_callback playing Examples.buffer1024 in
  fst (play Examples.reverse1024) = Returned tt /\
  curframe playing = 1023 /\
  curframe_in_bounds playing /\
  cb_raised result = None /\
  curframe (cb_self result) = -1 /\
  ~ curframe_in_bounds (cb_self result).
Proof.
  cbv zeta.
  assert (Hplay : play Examples.reverse1024
                  = (Returned tt,
                     set_stream_state OutputStream.Active
                       (set_curframe 1023
                          (set_mode MODE_PLAYING Examples.reverse1024))))
    by (vm_compute; reflexivity).
  rewrite Hplay. cbn [fst snd].
  set (playing := set_stream_state _ _).
  destruct (@reverse_block_reaching_start DEFAULT_BLOCK_SIZE playing
              Examples.buffer1024) as [block Hcb].
  { vm_compute. intuition discriminate. }
  { reflexivity. }
  { reflexivity. }
  { vm_compute. reflexivity. }
  unfold _next_block_callback. rewrite Hcb. cbn [cb_raised cb_self].
  repeat split; vm_compute; intuition discriminate.
Qed.

End PlaybackEngine.

(** ** The frame store *)

Module FrameStore.

Import BaseAudioData.

Ltac case_ifs :=
  repeat match goal with
         | |- context [if ?b then _ else _] => destruct b eqn:?
         end.

(** *** The byte cursor *)

(** Moving the cursor never touches [_position]. *)
Lemma move_fileobj_cursor_position (frame_offset mode : Z) (self : t) :
  position (snd (_move_fileobj_cursor frame_offset mode self))
  = position self.
Proof.
  unfold _move_fileobj_cursor, on_source, BinaryIO.seek. run.
  case_ifs; cbn; case_ifs; reflexivity.
Qed.

(** An absolute move to a frame at or after the start returns normally,
    whatever the frame count is, and puts the cursor on the byte offset of
    the frame. *)
Lemma move_fileobj_cursor_absolute (frame_offset : Z) (self : t) :
  0 <= frame_offset * framesize self ->
  _move_fileobj_cursor frame_offset _FILEOBJ_SEEK_ABSOLUTE self
  = (Returned tt,
     set_source (BinaryIO.mk (BinaryIO.content (source self))
                   (frame_offset * framesize self)) self).
Proof.
  intros H. unfold _move_fileobj_cursor, on_source, BinaryIO.seek. run.
  cbn [_FILEOBJ_SEEK_ABSOLUTE Z.eqb Z.add].
  assert (E : (frame_offset * framesize self <? 0) = false)
    by (apply Z.ltb_ge; lia).
  rewrite E. case_ifs; reflexivity.
Qed.

(** *** Materialising frames *)

(** [byte_data // self.framesize] divides a [bytes] object: the frame array
    is never built. *)
Lemma create_frame_array_raises (byte_data : list byte) (self : t) :
  _create_frame_array byte_data self = (Raised TypeError, self).
Proof. reflexivity. Qed.

Lemma read_always_raises (frames : Z) (self : t) :
  fst (read frames self) = Raised TypeError.
Proof. reflexivity. Qed.

Lemma read_left_never_returns (frames : Z) (self : t) :
  forall a, fst (read_left frames self) <> Returned a.
Proof.
  intros a. unfold read_left. unfold bind at 1.
  destruct (_get_chunk_from_behind frames self) as [[chunk|e] self'];
    cbn; discriminate.
Qed.

(** *** The position *)

Lemma jump_position (frame_offset : Z) (self : t) :
  position (snd (jump frame_offset self)) = position self.
Proof. apply move_fileobj_cursor_position. Qed.

Lemma seek_position (frame_offset : Z) (self : t) :
  position (snd (seek frame_offset self)) = position self.
Proof. apply move_fileobj_cursor_position. Qed.

Lemma read_position (frames : Z) (self : t) :
  position (snd (read frames self)) = position self.
Proof. reflexivity. Qed.

(** *** Reading behind the position *)

(** When the requested chunk would start before frame 0, the chunk size is
    increased by the overshoot, and that many bytes are read from the start
    of the source. *)
Lemma get_chunk_from_behind_overshoot (chunk_size : Z) (self : t) :
  0 <= position self < chunk_size ->
  0 <= framesize self ->
  fst (_get_chunk_from_behind chunk_size self)
  = Returned (firstn (Z.to_nat (chunk_size + (chunk_size - position self)))
                (BinaryIO.content (source self))).
Proof.
  intros Hp Hfs. unfold _get_chunk_from_behind.
  unfold bind at 1, gets at 1. cbn beta iota.
  assert (E : (position self - chunk_size <? 0) = true)
    by (apply Z.ltb_lt; lia).
  rewrite E.
  unfold bind at 1. rewrite move_fileobj_cursor_absolute by lia.
  unfold bind at 1, on_source at 1, BinaryIO.read. cbn [source set_source _source
    BinaryIO.cursor BinaryIO.content Z.mul Z.to_nat skipn].
  assert (E2 : (chunk_size - (position self - chunk_size) <? 0) = false)
    by (apply Z.ltb_ge; lia).
  rewrite E2.
  unfold bind at 1, gets at 1. cbn beta iota.
  unfold bind at 1. rewrite move_fileobj_cursor_absolute.
  - cbn. do 2 f_equal. lia.
  - cbn. unfold position, framesize in *. cbn. nia.
Qed.

(** *** The claims on the concrete stores *)

(** C4 fails on the code: on a store of ten frames, [jump] to frame 10 and
    to frame 1000 and [seek] by 12 frames return normally and move the
    cursor past the last byte; the bounds error is built and dropped. *)
Theorem out_of_range_moves_not_reported :
  framecount Examples.store10 = 10 /\
  jump 10 Examples.store10
  = (Returned tt,
     set_source (BinaryIO.mk Examples.bytes20 20) Examples.store10) /\
  jump 1000 Examples.store10
  = (Returned tt,
     set_source (BinaryIO.mk Examples.bytes20 2000) Examples.store10) /\
  seek 12 Examples.store10
  = (Returned tt,
     set_source (BinaryIO.mk Examples.bytes20 24) Examples.store10).
Proof. repeat split. Qed.

(** C5 fails on the code: on a store of ten frames at position 0, [jump] to
    frame 3, [seek] by 3 frames and [read] leave the position at 0; only the
    cursor of the file object moves. *)
Theorem position_not_updated :
  position Examples.store10 = 0 /\
  fst (jump 3 Examples.store10) = Returned tt /\
  position (snd (jump 3 Examples.store10)) = 0 /\
  BinaryIO.cursor (source (snd (jump 3 Examples.store10))) = 6 /\
  fst (seek 3 Examples.store10) = Returned tt /\
  position (snd (seek 3 Examples.store10)) = 0 /\
  position (snd (read 2 Examples.store10)) = 0 /\
  BinaryIO.cursor (source (snd (read 2 Examples.store10))) = 2.
Proof. repeat split. Qed.

(** C6 fails on the code: [read 2] on a store of ten two-byte frames takes
    two bytes, one frame, from the source and raises [TypeError] instead of
    returning an array. *)
Theorem read_raises_type_error :
  read 2 Examples.store10
  = (Raised TypeError,
     set_source (BinaryIO.mk Examples.bytes20 2) Examples.store10).
Proof. reflexivity. Qed.

(** C7 fails on the code: with one-byte frames and the position at 0, the
    chunk fetched for [read_left 3] is the six frames 0 to 5, not an empty
    one; with the position at 4, the chunk fetched for six frames is the
    eight frames 0 to 7, not the four before the position. *)
Theorem read_left_chunk_grows :
  position Examples.store10_mono8 = 0 /\
  fst (_get_chunk_from_behind 3 Examples.store10_mono8)
  = Returned [x00; x01; x02; x03; x04; x05] /\
  fst (read_left 3 Examples.store10_mono8) = Raised TypeError /\
  fst (_get_chunk_from_behind 6 (set_position 4 Examples.store10_mono8))
  = Returned [x00; x01; x02; x03; x04; x05; x06; x07].
Proof. repeat split. Qed.

End FrameStore.

(** * Further properties of the code *)

(** ** What a slice with step 1 or -1 contains *)

Section SliceContents.

Context {A : Type}.
Implicit Types (l : list A) (idxs : list Z).

Lemma slice_indices_cons (start step : Z) (n : nat) :
  slice_indices start step (S n)
  = start :: slice_indices (start + step) step n.
Proof.
  unfold slice_indices. cbn [seq map]. f_equal; [lia|].
  rewrite <- seq_shift, map_map. apply map_ext. intros k. lia.
Qed.

Lemma slice_indices_snoc (start step : Z) (n : nat) :
  slice_indices start step (S n)
  = slice_indices start step n ++ [start + Z.of_nat n * step].
Proof.
  unfold slice_indices. rewrite seq_S, map_app. reflexivity.
Qed.

Lemma slice_indices_backward (start : Z) (n : nat) :
  slice_indices start (-1) n
  = rev (slice_indices (start - Z.of_nat n + 1) 1 n).
Proof.
  revert start. induction n as [|n IH]; intros start; [reflexivity|].
  rewrite slice_indices_cons, slice_indices_snoc, rev_app_distr.
  cbn [rev app]. f_equal; [lia|].
  rewrite IH. do 2 f_equal. lia.
Qed.

Lemma gather_app l idxs1 idxs2 :
  gather l (idxs1 ++ idxs2) = gather l idxs1 ++ gather l idxs2.
Proof. unfold gather. apply flat_map_app. Qed.

Lemma gather_rev l idxs : gather l (rev idxs) = rev (gather l idxs).
Proof.
  induction idxs as [|i idxs IH]; [reflexivity|].
  cbn [rev]. rewrite gather_app, IH.
  change (i :: idxs) with ([i] ++ idxs). rewrite (gather_app l [i] idxs).
  rewrite rev_app_distr. f_equal.
  unfold gather. cbn [flat_map]. rewrite app_nil_r.
  now destruct (nth_error l (Z.to_nat i)).
Qed.

Lemma skipn_nth_error l (s : nat) (x : A) :
  nth_error l s = Some x -> skipn s l = x :: skipn (S s) l.
Proof.
  revert s. induction l as [|y l IH]; intros [|s] H; try discriminate.
  - cbn in *. congruence.
  - cbn [nth_error] in H. cbn [skipn]. rewrite (IH s H). reflexivity.
Qed.

Lemma gather_forward l (s : Z) (n : nat) :
  0 <= s -> s + Z.of_nat n <= Z.of_nat (length l) ->
  gather l (slice_indices s 1 n) = firstn n (skipn (Z.to_nat s) l).
Proof.
  revert s. induction n as [|n IH]; intros s Hs Hn; [reflexivity|].
  rewrite slice_indices_cons.
  change (s :: slice_indices (s + 1) 1 n)
    with ([s] ++ slice_indices (s + 1) 1 n).
  rewrite gather_app, IH by lia.
  destruct (nth_error l (Z.to_nat s)) as [x|] eqn:E.
  - rewrite (skipn_nth_error _ _ _ E). unfold gather. cbn [flat_map].
    rewrite E. cbn [app firstn]. do 3 f_equal. lia.
  - apply nth_error_None in E. lia.
Qed.

Lemma gather_backward l (s : Z) (n : nat) :
  0 <= s - Z.of_nat n + 1 -> s < Z.of_nat (length l) ->
  gather l (slice_indices s (-1) n)
  = rev (firstn n (skipn (Z.to_nat (s - Z.of_nat n + 1)) l)).
Proof.
  intros Hs Hl. rewrite slice_indices_backward, gather_rev.
  rewrite gather_forward by lia. reflexivity.
Qed.

(** [l[s:e]] with both ends inside the sequence. *)
Lemma py_slice_forward_inside l (s e : Z) :
  0 <= s <= e -> e < Z.of_nat (length l) ->
  py_slice l s (Some e) 1
  = Returned (firstn (Z.to_nat (e - s)) (skipn (Z.to_nat s) l)).
Proof.
  intros Hs He. unfold py_slice. cbn [Z.eqb].
  rewrite !adjust_index_in_range by lia.
  assert (Hn : slice_length s e 1 = e - s).
  { unfold slice_length. cbn [Z.ltb Z.compare].
    destruct (s <? e) eqn:E.
    - rewrite Z.div_1_r. lia.
    - apply Z.ltb_ge in E. lia. }
  rewrite Hn, gather_forward by lia. reflexivity.
Qed.

(** [l[s:]] from a position in the sequence or just after it. *)
Lemma py_slice_forward_open l (s : Z) :
  0 <= s <= Z.of_nat (length l) ->
  py_slice l s None 1 = Returned (skipn (Z.to_nat s) l).
Proof.
  intros Hs. unfold py_slice. cbn [Z.eqb Z.ltb Z.compare].
  set (len := Z.of_nat (length l)) in *.
  assert (Ha : adjust_index len 1 s = s).
  { destruct (Z.eq_dec s len) as [->|Hne].
    - unfold adjust_index. cbn [Z.ltb Z.compare].
      destruct (len <? 0) eqn:E1; [apply Z.ltb_lt in E1; lia|].
      destruct (len >=? len) eqn:E2; [reflexivity|].
      rewrite Z.geb_leb in E2. apply Z.leb_gt in E2. lia.
    - apply adjust_index_in_range. lia. }
  rewrite Ha.
  assert (Hn : slice_length s len 1 = len - s).
  { unfold slice_length. cbn [Z.ltb Z.compare].
    destruct (s <? len) eqn:E.
    - rewrite Z.div_1_r. lia.
    - apply Z.ltb_ge in E. lia. }
  rewrite Hn, gather_forward by (subst len; lia).
  rewrite firstn_all2; [reflexivity|]. rewrite length_skipn. subst len. lia.
Qed.

(** The start of a reverse slice: a position just after the sequence is
    moved onto its last element. *)
Lemma adjust_index_backward_start (len s : Z) :
  0 <= s <= len -> adjust_index len (-1) s = Z.min s (len - 1).
Proof.
  intros Hs. destruct (Z.eq_dec s len) as [->|Hne].
  - unfold adjust_index. cbn [Z.ltb Z.compare].
    destruct (len <? 0) eqn:E1; [apply Z.ltb_lt in E1; lia|].
    destruct (len >=? len) eqn:E2; [lia|].
    rewrite Z.geb_leb in E2. apply Z.leb_gt in E2. lia.
  - rewrite adjust_index_in_range; lia.
Qed.

(** [l[s:e:-1]] with the end inside the sequence. *)
Lemma py_slice_backward_inside l (s e : Z) :
  0 <= e < s -> s <= Z.of_nat (length l) ->
  py_slice l s (Some e) (-1)
  = Returned (rev (firstn (Z.to_nat (Z.min s (Z.of_nat (length l) - 1) - e))
                     (skipn (Z.to_nat (e + 1)) l))).
Proof.
  intros He Hs. unfold py_slice. cbn [Z.eqb].
  set (len := Z.of_nat (length l)) in *.
  rewrite adjust_index_backward_start by lia.
  rewrite (adjust_index_in_range len (-1) e) by lia.
  set (s' := Z.min s (len - 1)).
  assert (Hn : slice_length s' e (-1) = s' - e).
  { unfold slice_length. cbn [Z.ltb Z.compare Z.opp].
    destruct (e <? s') eqn:E.
    - rewrite Z.div_1_r. lia.
    - apply Z.ltb_ge in E. subst s'. lia. }
  rewrite Hn, gather_backward by (subst len s'; lia).
  replace (s' - Z.of_nat (Z.to_nat (s' - e)) + 1) with (e + 1)
    by (subst s'; lia).
  reflexivity.
Qed.

(** [l[s::-1]] from a position in the sequence or just after it. *)
Lemma py_slice_backward_open l (s : Z) :
  0 <= s <= Z.of_nat (length l) ->
  py_slice l s None (-1)
  = Returned (rev (firstn (Z.to_nat (Z.min s (Z.of_nat (length l) - 1) + 1))
                     l)).
Proof.
  intros Hs. unfold py_slice. cbn [Z.eqb Z.ltb Z.compare].
  set (len := Z.of_nat (length l)) in *.
  rewrite adjust_index_backward_start by lia.
  set (s' := Z.min s (len - 1)).
  assert (Hn : slice_length s' (-1) (-1) = s' + 1).
  { unfold slice_length. cbn [Z.ltb Z.compare Z.opp].
    destruct (-1 <? s') eqn:E.
    - rewrite Z.div_1_r. lia.
    - apply Z.ltb_ge in E. subst s'. lia. }
  rewrite Hn.
  destruct (Z.eq_dec len 0) as [H0|H0].
  - assert (Hs' : s' + 1 = 0) by (subst s'; lia).
    rewrite Hs'. reflexivity.
  - rewrite gather_backward by (subst len s'; lia).
    replace (s' - Z.of_nat (Z.to_nat (s' + 1)) + 1) with 0
      by (subst s'; lia).
    reflexivity.
Qed.

End SliceContents.

(** ** The playback engine, further *)

Module EngineLaws.

Import AudioStream.

(** *** The blocks [get_next_block] extracts *)

Lemma next_block_forward_inside (l : list frame) (c n : Z) :
  0 <= c -> 0 < n -> c + n < Z.of_nat (length l) ->
  get_next_block l 1 c n
  = Returned (firstn (Z.to_nat n) (skipn (Z.to_nat c) l), c + n).
Proof.
  intros Hc Hn Hl. unfold get_next_block, is_within_bounds.
  rewrite Z.mul_1_r.
  assert (E1 : (0 <=? c + n) = true) by (apply Z.leb_le; lia).
  assert (E2 : (c + n <? Z.of_nat (length l)) = true)
    by (apply Z.ltb_lt; lia).
  assert (E3 : (c + n =? 0) = false) by (apply Z.eqb_neq; lia).
  rewrite E1, E2, E3. cbn [andb negb].
  rewrite py_slice_forward_inside by lia.
  replace (c + n - c) with n by lia. reflexivity.
Qed.

Lemma next_block_forward_edge (l : list frame) (c n : Z) :
  0 <= c <= Z.of_nat (length l) -> 0 < n -> Z.of_nat (length l) <= c + n ->
  get_next_block l 1 c n = Returned (skipn (Z.to_nat c) l, c + n).
Proof.
  intros Hc Hn Hl. unfold get_next_block, is_within_bounds.
  rewrite Z.mul_1_r.
  assert (E2 : (c + n <? Z.of_nat (length l)) = false)
    by (apply Z.ltb_ge; lia).
  assert (E3 : (c + n =? 0) = false) by (apply Z.eqb_neq; lia).
  rewrite E2, E3, andb_false_r. cbn [negb].
  rewrite py_slice_forward_open by lia. reflexivity.
Qed.

Lemma next_block_reverse_inside (l : list frame) (c n : Z) :
  0 < n <= c -> c <= Z.of_nat (length l) ->
  get_next_block l (-1) c n
  = Returned
      (rev (firstn (Z.to_nat (Z.min c (Z.of_nat (length l) - 1) - (c - n)))
              (skipn (Z.to_nat (c - n + 1)) l)),
       c - n).
Proof.
  intros Hn Hl. unfold get_next_block, is_within_bounds.
  replace (c + n * -1) with (c - n) by lia.
  assert (E1 : (0 <=? c - n) = true) by (apply Z.leb_le; lia).
  assert (E2 : (c - n <? Z.of_nat (length l)) = true)
    by (apply Z.ltb_lt; lia).
  rewrite E1, E2. cbn [andb Z.eqb].
  rewrite py_slice_backward_inside by lia. do 2 f_equal.
  destruct (c - n =? 0) eqn:E3; cbn [negb]; [|reflexivity].
  apply Z.eqb_eq in E3. lia.
Qed.

Lemma next_block_reverse_edge (l : list frame) (c n : Z) :
  0 <= c <= Z.of_nat (length l) -> c < n ->
  get_next_block l (-1) c n
  = Returned
      (rev (firstn (Z.to_nat (Z.min c (Z.of_nat (length l) - 1) + 1)) l),
       c - n).
Proof.
  intros Hc Hn. unfold get_next_block, is_within_bounds.
  replace (c + n * -1) with (c - n) by lia.
  assert (E1 : (0 <=? c - n) = false) by (apply Z.leb_gt; lia).
  assert (E3 : (c - n =? 0) = false) by (apply Z.eqb_neq; lia).
  rewrite E1, E3. cbn [andb negb].
  rewrite py_slice_backward_open by lia. reflexivity.
Qed.

(** *** The two branches of the callback *)

Lemma callback_full_block (block_size : Z) (self : t)
    (outdata block : list frame) (next : Z) :
  get_next_block (AudioData.data (_audio self)) (_direction self)
    (curframe self) block_size = Returned (block, next) ->
  length block = length outdata ->
  _next_block_callback_with block_size self outdata
  = mk_result (set_curframe next self) block None.
Proof.
  intros Hblock Hlen. unfold _next_block_callback_with. rewrite Hblock.
  rewrite Hlen, Nat.ltb_irrefl. unfold np_assign_rows.
  now rewrite Hlen, Nat.eqb_refl.
Qed.

Lemma callback_short_block (block_size : Z) (self : t)
    (outdata block : list frame) (next : Z) :
  get_next_block (AudioData.data (_audio self)) (_direction self)
    (curframe self) block_size = Returned (block, next) ->
  (length block < length outdata)%nat ->
  _next_block_callback_with block_size self outdata
  = let padded := block ++ np_fill_zero (skipn (length block) outdata) in
    if loop self then
      match (if reverse self then jump_to_end else jump_to_start) self with
      | (Returned _, self') => mk_result self' padded None
      | (Raised e, self') => mk_result self' padded (Some e)
      end
    else mk_result self padded (Some CallbackStop).
Proof.
  intros Hblock Hshort. unfold _next_block_callback_with. rewrite Hblock.
  apply Nat.ltb_lt in Hshort. rewrite Hshort. apply Nat.ltb_lt in Hshort.
  rewrite PlaybackEngine.np_assign_front by assumption. cbv zeta.
  rewrite firstn_app, Nat.sub_diag, firstn_all. cbn [firstn].
  rewrite app_nil_r, skipn_app, Nat.sub_diag, skipn_all. reflexivity.
Qed.

Lemma reverse_of_direction (self : t) :
  (_direction self = 1 -> reverse self = false) /\
  (_direction self = -1 -> reverse self = true).
Proof. unfold reverse, direction. split; intros ->; reflexivity. Qed.

Ltac list_length :=
  rewrite ?length_rev, ?length_firstn, ?length_skipn; lia.

(** *** Forward playback *)

(** X1: While [block_size] frames remain, a forward callback copies the next
    [block_size] frames in order into the buffer, advances the position by
    [block_size] and raises nothing. *)
Theorem forward_block_delivered (block_size : Z) (self : t)
    (outdata : list frame) :
  _direction self = 1 ->
  0 <= curframe self ->
  0 < block_size ->
  curframe self + block_size <= AudioData.framecount (audio self) ->
  Z.of_nat (length outdata) = block_size ->
  _next_block_callback_with block_size self outdata
  = mk_result (set_curframe (curframe self + block_size) self)
      (firstn (Z.to_nat block_size)
         (skipn (Z.to_nat (curframe self)) (AudioData.data (_audio self))))
      None.
Proof.
  intros Hdir Hc Hn Hfit Hout.
  unfold AudioData.framecount, audio in Hfit.
  set (l := AudioData.data (_audio self)) in *.
  destruct (Z_lt_dec (curframe self + block_size) (Z.of_nat (length l)))
    as [Hin|Hedge].
  - apply callback_full_block.
    + fold l. rewrite Hdir. now apply next_block_forward_inside.
    + list_length.
  - rewrite firstn_all2 by list_length.
    apply callback_full_block.
    + fold l. rewrite Hdir. apply next_block_forward_edge; lia.
    + list_length.
Qed.

Lemma forward_block_delivered_witness :
  _next_block_callback_with 3 (set_curframe 2 Examples.forward_at_6)
    Examples.buffer3
  = mk_result (set_curframe 5 Examples.forward_at_6)
      [[20; 21]; [30; 31]; [40; 41]] None.
Proof.
  apply (forward_block_delivered 3 (set_curframe 2 Examples.forward_at_6)
           Examples.buffer3); cbn; first [reflexivity | lia].
Defined.

(** X2: When fewer than [block_size] frames remain, a forward callback copies
    the remaining frames to the front of the buffer and zeroes the rest;
    a looping engine then moves to frame 0, any other raises [CallbackStop]
    and keeps its position. *)
Theorem forward_tail_padded (block_size : Z) (self : t)
    (outdata : list frame) :
  _direction self = 1 ->
  0 <= curframe self <= AudioData.framecount (audio self) ->
  AudioData.framecount (audio self) < curframe self + block_size ->
  Z.of_nat (length outdata) = block_size ->
  let tail := skipn (Z.to_nat (curframe self)) (AudioData.data (_audio self)) in
  let padded := tail ++ np_fill_zero (skipn (length tail) outdata) in
  _next_block_callback_with block_size self outdata
  = if loop self then mk_result (set_curframe 0 self) padded None
    else mk_result self padded (Some CallbackStop).
Proof.
  intros Hdir Hc Hover Hout tail padded.
  unfold AudioData.framecount, audio in Hc, Hover.
  rewrite (callback_short_block block_size self outdata (tail)
                 (curframe self + block_size)).
  - cbv zeta. fold padded.
    rewrite (proj1 (reverse_of_direction self) Hdir).
    now rewrite PlaybackEngine.jump_to_start_ok.
  - rewrite Hdir. apply next_block_forward_edge; lia.
  - unfold tail. list_length.
Qed.

Lemma forward_tail_padded_witness :
  _next_block_callback_with 3 Examples.forward_at_6 Examples.buffer3
  = mk_result Examples.forward_at_6 [[60; 61]; [70; 71]; [0; 0]]
      (Some CallbackStop).
Proof.
  apply (forward_tail_padded 3 Examples.forward_at_6 Examples.buffer3);
    cbn; first [reflexivity | lia].
Defined.

(** X3: Forward playback keeps the position within bounds: from a position in
    [0, frame count] a forward callback leaves the position in that range. *)
Theorem forward_callback_in_bounds (block_size : Z) (self : t)
    (outdata : list frame) :
  _direction self = 1 ->
  curframe_in_bounds self ->
  0 < block_size ->
  Z.of_nat (length outdata) = block_size ->
  curframe_in_bounds
    (cb_self (_next_block_callback_with block_size self outdata)).
Proof.
  intros Hdir Hinv Hn Hout. unfold curframe_in_bounds in *.
  pose proof Hinv as Hinv'.
  unfold AudioData.framecount, audio in Hinv'.
  set (l := AudioData.data (_audio self)) in *.
  destruct (Z_le_dec (curframe self + block_size) (Z.of_nat (length l)))
    as [Hfit|Hover].
  - destruct (Z_lt_dec (curframe self + block_size) (Z.of_nat (length l)))
      as [Hin|Hedge].
    + rewrite (callback_full_block block_size self outdata
                 (firstn (Z.to_nat block_size)
                    (skipn (Z.to_nat (curframe self)) l))
                 (curframe self + block_size)).
      * cbn. unfold AudioData.framecount. fold l. lia.
      * fold l. rewrite Hdir. now apply next_block_forward_inside.
      * list_length.
    + rewrite (callback_full_block block_size self outdata
                 (skipn (Z.to_nat (curframe self)) l)
                 (curframe self + block_size)).
      * cbn. unfold AudioData.framecount. fold l. lia.
      * fold l. rewrite Hdir. apply next_block_forward_edge; lia.
      * list_length.
  - rewrite (callback_short_block block_size self outdata
               (skipn (Z.to_nat (curframe self)) l)
                 (curframe self + block_size)).
    + cbv zeta. rewrite (proj1 (reverse_of_direction self) Hdir).
      rewrite PlaybackEngine.jump_to_start_ok.
      destruct (loop self); cbn; [|exact Hinv].
      unfold AudioData.framecount. lia.
    + fold l. rewrite Hdir. apply next_block_forward_edge; lia.
    + list_length.
Qed.

Lemma forward_callback_in_bounds_witness :
  curframe_in_bounds
    (cb_self (_next_block_callback_with 3 Examples.forward_loop_at_6
                Examples.buffer3)).
Proof.
  apply forward_callback_in_bounds.
  - reflexivity.
  - unfold curframe_in_bounds. cbn. lia.
  - lia.
  - reflexivity.
Defined.

(** *** Reverse playback *)

(** X4: From a frame of the audio with at least [block_size] frames before it,
    a reverse callback copies the frame at the position and the
    [block_size - 1] frames before it, in descending order, moves the
    position back by [block_size] and raises nothing. *)
Theorem reverse_block_delivered (block_size : Z) (self : t)
    (outdata : list frame) :
  _direction self = -1 ->
  0 < block_size <= curframe self ->
  curframe self < AudioData.framecount (audio self) ->
  Z.of_nat (length outdata) = block_size ->
  _next_block_callback_with block_size self outdata
  = mk_result (set_curframe (curframe self - block_size) self)
      (rev (firstn (Z.to_nat block_size)
              (skipn (Z.to_nat (curframe self - block_size + 1))
                 (AudioData.data (_audio self)))))
      None.
Proof.
  intros Hdir Hn Hc Hout. unfold AudioData.framecount, audio in Hc.
  set (l := AudioData.data (_audio self)) in *.
  apply callback_full_block.
  - fold l. rewrite Hdir, next_block_reverse_inside by lia.
    do 4 f_equal. lia.
  - list_length.
Qed.

Lemma reverse_block_delivered_witness :
  _next_block_callback_with 3 (set_curframe 6 Examples.reverse_at_5)
    Examples.buffer3
  = mk_result (set_curframe 3 Examples.reverse_at_5)
      [[60; 61]; [50; 51]; [40; 41]] None.
Proof.
  apply (reverse_block_delivered 3 (set_curframe 6 Examples.reverse_at_5)
           Examples.buffer3); cbn; first [reflexivity | lia].
Defined.

(** X5: From a frame of the audio with fewer than [block_size - 1] frames before
    it, a reverse callback copies the frames from the position down to frame
    0 to the front of the buffer and zeroes the rest; a looping engine then
    moves to the last frame, any other raises [CallbackStop] and keeps its
    position. *)
Theorem reverse_head_padded (block_size : Z) (self : t)
    (outdata : list frame) :
  _direction self = -1 ->
  0 <= curframe self < AudioData.framecount (audio self) ->
  curframe self + 1 < block_size ->
  Z.of_nat (length outdata) = block_size ->
  let head :=
    rev (firstn (Z.to_nat (curframe self + 1))
           (AudioData.data (_audio self))) in
  let padded := head ++ np_fill_zero (skipn (length head) outdata) in
  _next_block_callback_with block_size self outdata
  = if loop self then
      mk_result (set_curframe (AudioData.framecount (audio self) - 1) self)
        padded None
    else mk_result self padded (Some CallbackStop).
Proof.
  intros Hdir Hc Hshort Hout head padded.
  pose proof Hc as Hc'. unfold AudioData.framecount, audio in Hc'.
  rewrite (callback_short_block block_size self outdata head
             (curframe self - block_size)).
  - cbv zeta. fold padded.
    rewrite (proj2 (reverse_of_direction self) Hdir).
    rewrite PlaybackEngine.jump_to_end_ok; [reflexivity|].
    intros E. rewrite E in Hc'. cbn in Hc'. lia.
  - rewrite Hdir, next_block_reverse_edge by lia. unfold head.
    do 4 f_equal. lia.
  - unfold head. list_length.
Qed.

Lemma reverse_head_padded_witness :
  _next_block_callback_with 3 Examples.reverse_loop_at_1 Examples.buffer3
  = mk_result (set_curframe 7 Examples.reverse_loop_at_1)
      [[10; 11]; [0; 1]; [0; 0]] None.
Proof.
  apply (reverse_head_padded 3 Examples.reverse_loop_at_1 Examples.buffer3);
    cbn; first [reflexivity | lia].
Defined.

(** X6: From the end position, [curframe] equal to the frame count, a reverse
    callback starts on the last frame but stops short of the frame
    [block_size] before the end position: it delivers only the last
    [block_size - 1] frames, in descending order, zeroes the last frame of
    the buffer and treats the block as an under-run, although [block_size]
    frames are available. *)
Theorem reverse_from_end_underruns (block_size : Z) (self : t)
    (outdata : list frame) :
  _direction self = -1 ->
  curframe self = AudioData.framecount (audio self) ->
  0 < block_size <= AudioData.framecount (audio self) ->
  Z.of_nat (length outdata) = block_size ->
  let last_frames :=
    rev (skipn (Z.to_nat (curframe self - block_size + 1))
           (AudioData.data (_audio self))) in
  let padded :=
    last_frames ++ np_fill_zero (skipn (length last_frames) outdata) in
  Z.of_nat (length last_frames) = block_size - 1 /\
  _next_block_callback_with block_size self outdata
  = if loop self then
      mk_result (set_curframe (AudioData.framecount (audio self) - 1) self)
        padded None
    else mk_result self padded (Some CallbackStop).
Proof.
  intros Hdir Hc Hn Hout last_frames padded.
  pose proof Hn as Hn'. unfold AudioData.framecount, audio in Hc, Hn'.
  assert (Hlen : Z.of_nat (length last_frames) = block_size - 1)
    by (unfold last_frames; list_length).
  split; [exact Hlen|].
  rewrite (callback_short_block block_size self outdata last_frames
             (curframe self - block_size)).
  - cbv zeta. fold padded.
    rewrite (proj2 (reverse_of_direction self) Hdir).
    rewrite PlaybackEngine.jump_to_end_ok; [reflexivity|].
    intros E. rewrite E in Hn'. cbn in Hn'. lia.
  - rewrite Hdir, next_block_reverse_inside by lia. unfold last_frames.
    rewrite firstn_all2 by list_length. reflexivity.
  - lia.
Qed.

Lemma reverse_from_end_underruns_witness :
  _next_block_callback_with 3 (set_curframe 8 Examples.reverse_at_5)
    Examples.buffer3
  = mk_result (set_curframe 8 Examples.reverse_at_5)
      [[70; 71]; [60; 61]; [0; 0]] (Some CallbackStop).
Proof.
  apply (reverse_from_end_underruns 3 (set_curframe 8 Examples.reverse_at_5)
           Examples.buffer3); cbn; first [reflexivity | lia].
Defined.

(** *** What the callback never does *)

Lemma jump_to_frame_cases (frame : Z) (self : t) :
  jump_to_frame frame self = (Returned tt, set_curframe frame self) \/
  jump_to_frame frame self = (Raised ValueError, self).
Proof.
  destruct (Z_lt_dec frame 0) as [Hneg|Hpos].
  - right. apply PlaybackEngine.jump_to_frame_rejects. lia.
  - destruct (Z_lt_dec (AudioData.framecount (audio self)) frame).
    + right. apply PlaybackEngine.jump_to_frame_rejects. lia.
    + left. apply PlaybackEngine.jump_to_frame_accepts. lia.
Qed.

Lemma callback_jump_cases (self : t) :
  let m := if reverse self then jump_to_end else jump_to_start in
  (exists frame, m self = (Returned tt, set_curframe frame self)) \/
  m self = (Raised ValueError, self).
Proof.
  cbv zeta. destruct (reverse self).
  - unfold jump_to_end. run.
    destruct (jump_to_frame_cases (AudioData.len (_audio self) - 1) self)
      as [E|E]; rewrite E; eauto.
  - left. exists 0. apply PlaybackEngine.jump_to_start_ok.
Qed.

(** X7: The callback never resizes the buffer, whatever the engine state and
    the buffer are and however the callback ends. *)
Theorem callback_keeps_buffer_length (block_size : Z) (self : t)
    (outdata : list frame) :
  length (cb_outdata (_next_block_callback_with block_size self outdata))
  = length outdata.
Proof.
  destruct (get_next_block (AudioData.data (_audio self)) (_direction self)
              (curframe self) block_size) as [[block next]|e] eqn:Hb.
  - destruct (Nat.ltb (length block) (length outdata)) eqn:E.
    + apply Nat.ltb_lt in E.
      rewrite (callback_short_block _ _ _ _ _ Hb E). cbv zeta.
      assert (Hlen : length (block ++ np_fill_zero
                                        (skipn (length block) outdata))
                     = length outdata).
      { unfold np_fill_zero. rewrite length_app, length_map, length_skipn.
        lia. }
      destruct (loop self); [|exact Hlen].
      destruct ((if reverse self then jump_to_end else jump_to_start) self)
        as [[[]|e] self']; exact Hlen.
    + unfold _next_block_callback_with. rewrite Hb, E.
      unfold np_assign_rows.
      destruct (Nat.eqb (length block) (length outdata)) eqn:E2.
      * cbn. now apply Nat.eqb_eq.
      * destruct block as [|row [|row' block]]; cbn; try reflexivity.
        apply repeat_length.
  - unfold _next_block_callback_with. rewrite Hb. reflexivity.
Qed.

(** X8: The callback changes nothing of the engine but [curframe]: the loop
    flag, the direction, the mode, the stream and the audio are as before,
    however the callback ends. *)
Theorem callback_changes_only_curframe (block_size : Z) (self : t)
    (outdata : list frame) :
  exists frame,
    cb_self (_next_block_callback_with block_size self outdata)
    = set_curframe frame self.
Proof.
  assert (Hself : self = set_curframe (curframe self) self)
    by (destruct self; reflexivity).
  destruct (get_next_block (AudioData.data (_audio self)) (_direction self)
              (curframe self) block_size) as [[block next]|e] eqn:Hb.
  - destruct (Nat.ltb (length block) (length outdata)) eqn:E.
    + apply Nat.ltb_lt in E.
      rewrite (callback_short_block _ _ _ _ _ Hb E). cbv zeta.
      destruct (loop self); [|exists (curframe self); exact Hself].
      destruct (callback_jump_cases self) as [[frame Hj]|Hj];
        cbv zeta in Hj; rewrite Hj.
      * exists frame. reflexivity.
      * exists (curframe self). exact Hself.
    + unfold _next_block_callback_with. rewrite Hb, E.
      destruct (np_assign_rows outdata block).
      * exists next. reflexivity.
      * exists (curframe self). exact Hself.
  - unfold _next_block_callback_with. rewrite Hb.
    exists (curframe self). exact Hself.
Qed.

Lemma jump_to_end_empty (self : t) :
  AudioData.data (_audio self) = [] ->
  jump_to_end self = (Raised ValueError, self).
Proof.
  intros Hdata. unfold jump_to_end. run.
  apply PlaybackEngine.jump_to_frame_rejects. left.
  unfold AudioData.len, AudioData.framecount. rewrite Hdata. cbn. lia.
Qed.

Lemma block_fits (l : list frame) (d c n : Z) :
  d = 1 \/ d = -1 ->
  0 <= c <= Z.of_nat (length l) ->
  0 < n ->
  exists block next,
    get_next_block l d c n = Returned (block, next) /\
    Z.of_nat (length block) <= n.
Proof.
  intros [-> | ->] Hc Hn.
  - destruct (Z_lt_dec (c + n) (Z.of_nat (length l))).
    + do 2 eexists. split; [apply next_block_forward_inside; lia|].
      list_length.
    + do 2 eexists. split; [apply next_block_forward_edge; lia|].
      list_length.
  - destruct (Z_le_dec n c).
    + do 2 eexists. split; [apply next_block_reverse_inside; lia|].
      list_length.
    + do 2 eexists. split; [apply next_block_reverse_edge; lia|].
      list_length.
Qed.

(** X9: From a position within bounds, with a direction of +1 or -1 and a
    buffer of [block_size] frames, the callback never fails on the shape of
    the block: it returns normally, or raises [CallbackStop] without
    changing the engine (no loop), or raises [ValueError] (looping in
    reverse on an audio without frames). *)
Theorem callback_errors_in_bounds (block_size : Z) (self : t)
    (outdata : list frame) :
  _direction self = 1 \/ _direction self = -1 ->
  curframe_in_bounds self ->
  0 < block_size ->
  Z.of_nat (length outdata) = block_size ->
  let result := _next_block_callback_with block_size self outdata in
  cb_raised result = None \/
  (cb_raised result = Some CallbackStop /\ loop self = false /\
   cb_self result = self) \/
  (cb_raised result = Some ValueError /\ loop self = true /\
   reverse self = true /\ AudioData.data (_audio self) = []).
Proof.
  intros Hdir Hinv Hn Hout result. subst result.
  unfold curframe_in_bounds, AudioData.framecount, audio in Hinv.
  destruct (block_fits (AudioData.data (_audio self)) (_direction self)
              (curframe self) block_size Hdir Hinv Hn)
    as [block [next [Hb Hlen]]].
  destruct (Nat.eq_dec (length block) (length outdata)) as [Heq|Hne].
  - left. now rewrite (callback_full_block _ _ _ _ _ Hb Heq).
  - assert (Hshort : (length block < length outdata)%nat) by lia.
    rewrite (callback_short_block _ _ _ _ _ Hb Hshort). cbv zeta.
    destruct (loop self); [|right; left; repeat split].
    destruct (reverse self).
    + destruct (AudioData.data (_audio self)) as [|x l] eqn:Hdata.
      * right. right.
        rewrite jump_to_end_empty by exact Hdata.
        repeat split.
      * left. rewrite PlaybackEngine.jump_to_end_ok; [reflexivity|].
        rewrite Hdata. discriminate.
    + left. now rewrite PlaybackEngine.jump_to_start_ok.
Qed.

Lemma callback_errors_in_bounds_witness :
  let result :=
    _next_block_callback_with 3 Examples.forward_at_6 Examples.buffer3 in
  cb_raised result = None \/
  (cb_raised result = Some CallbackStop /\
   loop Examples.forward_at_6 = false /\
   cb_self result = Examples.forward_at_6) \/
  (cb_raised result = Some ValueError /\
   loop Examples.forward_at_6 = true /\
   reverse Examples.forward_at_6 = true /\
   AudioData.data (_audio Examples.forward_at_6) = []).
Proof.
  apply callback_errors_in_bounds.
  - left. reflexivity.
  - unfold curframe_in_bounds. cbn. lia.
  - lia.
  - reflexivity.
Defined.

(** *** Seeking *)

(** X10: [jump_to_frame] accepts exactly the frames from 0 to the frame count,
    the end position included: it then sets the position and nothing else;
    any other frame raises [ValueError] and leaves the engine as it was. *)
Theorem jump_to_frame_spec (frame : Z) (self : t) :
  (0 <= frame <= AudioData.framecount (audio self) ->
   jump_to_frame frame self = (Returned tt, set_curframe frame self)) /\
  (frame < 0 \/ AudioData.framecount (audio self) < frame ->
   jump_to_frame frame self = (Raised ValueError, self)).
Proof.
  split.
  - apply PlaybackEngine.jump_to_frame_accepts.
  - apply PlaybackEngine.jump_to_frame_rejects.
Qed.

Lemma jump_to_frame_spec_witness :
  jump_to_frame 8 Examples.reverse_at_5
  = (Returned tt, set_curframe 8 Examples.reverse_at_5) /\
  jump_to_frame 9 Examples.reverse_at_5
  = (Raised ValueError, Examples.reverse_at_5).
Proof.
  split.
  - apply (proj1 (jump_to_frame_spec 8 Examples.reverse_at_5)). cbn. lia.
  - apply (proj2 (jump_to_frame_spec 9 Examples.reverse_at_5)). cbn. lia.
Defined.

(** X11: [jump_to_end] moves to the last frame of an audio that has frames, and
    raises [ValueError], changing nothing, on an audio without frames. *)
Theorem jump_to_end_spec (self : t) :
  (AudioData.data (_audio self) <> [] ->
   jump_to_end self
   = (Returned tt,
      set_curframe (AudioData.framecount (audio self) - 1) self)) /\
  (AudioData.data (_audio self) = [] ->
   jump_to_end self = (Raised ValueError, self)).
Proof.
  split.
  - apply PlaybackEngine.jump_to_end_ok.
  - apply jump_to_end_empty.
Qed.

Lemma jump_to_end_spec_witness :
  jump_to_end Examples.reverse_at_5
  = (Returned tt, set_curframe 7 Examples.reverse_at_5) /\
  jump_to_end Examples.empty_reverse_loop
  = (Raised ValueError, Examples.empty_reverse_loop).
Proof.
  split.
  - apply (proj1 (jump_to_end_spec Examples.reverse_at_5)). discriminate.
  - apply (proj2 (jump_to_end_spec Examples.empty_reverse_loop)).
    reflexivity.
Defined.

(** X12: [jump] to a whole number of seconds moves to that number of seconds
    times the frame rate when that frame lies between 0 and the frame count,
    and otherwise raises [ValueError] and changes nothing. *)
Theorem jump_whole_seconds (seconds : Z) (self : t) :
  (0 <= seconds * framerate self <= AudioData.framecount (audio self) ->
   jump (inject_Z seconds) self
   = (Returned tt, set_curframe (seconds * framerate self) self)) /\
  (seconds * framerate self < 0 \/
   AudioData.framecount (audio self) < seconds * framerate self ->
   jump (inject_Z seconds) self = (Raised ValueError, self)).
Proof.
  assert (E : Qfloor (inject_Z seconds * inject_Z (framerate self))
              = seconds * framerate self).
  { rewrite <- inject_Z_mult. apply Qfloor_Z. }
  unfold jump. run. rewrite E. split.
  - apply PlaybackEngine.jump_to_frame_accepts.
  - apply PlaybackEngine.jump_to_frame_rejects.
Qed.

Lemma jump_whole_seconds_witness :
  let slow :=
    mk 0 false 1 MODE_STOPPED (OutputStream.mk 2 OutputStream.Stopped)
       Examples.audio8 in
  jump (inject_Z 3) slow = (Returned tt, set_curframe 6 slow) /\
  jump (inject_Z (-1)) slow = (Raised ValueError, slow).
Proof.
  cbv zeta. split.
  - refine (proj1 (jump_whole_seconds 3 _) _). cbn. lia.
  - refine (proj2 (jump_whole_seconds (-1) _) _). cbn. lia.
Defined.

(** *** Transport *)

#[local] Arguments jump_to_frame : simpl never.
#[local] Arguments jump_to_start : simpl never.
#[local] Arguments jump_to_end : simpl never.

Ltac transport :=
  unfold play, pause, stop, stream_abort, stream_stop, stream_start,
    _stop_playback_callback, _set_default_playback_state;
  run.

Lemma stop_active (self : t) :
  OutputStream.active (_stream self) = true ->
  stop self
  = (Returned tt,
     mk 0 (_loop self) (_direction self) MODE_STOPPED
        (OutputStream.mk (OutputStream.samplerate (_stream self))
           OutputStream.Stopped)
        (_audio self)).
Proof.
  destruct self as [c lp d m [sr st] a]. intros Hact.
  destruct st; try discriminate. transport. cbn.
  now rewrite PlaybackEngine.jump_to_start_ok.
Qed.

Lemma stop_inactive (self : t) :
  OutputStream.active (_stream self) = false -> stop self = (Returned tt, self).
Proof. intros H. unfold stop. run. now rewrite H. Qed.

(** X13: [stop] on an active stream stops the stream and resets the engine:
    position 0, mode stopped; loop flag and direction are kept. *)
Theorem stop_active_resets (self : t) :
  OutputStream.active (_stream self) = true ->
  fst (stop self) = Returned tt /\
  curframe (snd (stop self)) = 0 /\
  _mode (snd (stop self)) = MODE_STOPPED /\
  OutputStream.state (_stream (snd (stop self))) = OutputStream.Stopped /\
  loop (snd (stop self)) = loop self /\
  direction (snd (stop self)) = direction self.
Proof. intros Hact. rewrite (stop_active self Hact). repeat split. Qed.

Lemma stop_active_resets_witness :
  curframe (snd (stop Examples.reverse_at_5)) = 0 /\
  _mode (snd (stop Examples.reverse_at_5)) = MODE_STOPPED.
Proof.
  destruct (stop_active_resets Examples.reverse_at_5) as [_ [H1 [H2 _]]].
  - reflexivity.
  - split; assumption.
Defined.

(** X14: [stop] is idempotent: a second [stop] returns and changes nothing, and
    [stop] on a stream that is not active changes nothing at all. *)
Theorem stop_idempotent (self : t) :
  stop (snd (stop self)) = (Returned tt, snd (stop self)) /\
  (OutputStream.active (_stream self) = false ->
   stop self = (Returned tt, self)).
Proof.
  split; [|apply stop_inactive].
  destruct (OutputStream.active (_stream self)) eqn:Hact.
  - rewrite (stop_active self Hact). cbn [snd].
    now apply stop_inactive.
  - rewrite (stop_inactive self Hact). cbn [snd]. now apply stop_inactive.
Qed.

Lemma stop_idempotent_witness :
  stop Examples.paused_at_5 = (Returned tt, Examples.paused_at_5).
Proof.
  apply (proj2 (stop_idempotent Examples.paused_at_5)). reflexivity.
Defined.

(** X15: [pause] then [play] on an active stream: an engine playing forward
    resumes where it was paused, only the mode being set to playing; an
    engine playing in reverse on an audio with frames does not resume but
    restarts from the last frame. *)
Theorem pause_then_play (self : t) :
  OutputStream.active (_stream self) = true ->
  (reverse self = false ->
   play (snd (pause self)) = (Returned tt, set_mode MODE_PLAYING self)) /\
  (reverse self = true -> AudioData.data (_audio self) <> [] ->
   play (snd (pause self))
   = (Returned tt,
      set_curframe (AudioData.framecount (audio self) - 1)
        (set_mode MODE_PLAYING self))).
Proof.
  destruct self as [c lp d m [sr st] a]. intros Hact.
  destruct st; try discriminate.
  split.
  - intros Hrev. transport. unfold reverse, direction in *. cbn in *.
    destruct (d =? -1); [discriminate|reflexivity].
  - intros Hrev Hne. transport. unfold reverse, direction in *. cbn in *.
    destruct (d =? -1); [|discriminate].
    rewrite PlaybackEngine.jump_to_end_ok by exact Hne. reflexivity.
Qed.

Lemma pause_then_play_witness :
  curframe (snd (play (snd (pause Examples.forward_loop_at_6)))) = 6 /\
  curframe (snd (play (snd (pause Examples.reverse_at_5)))) = 7.
Proof.
  split.
  - rewrite (proj1 (pause_then_play Examples.forward_loop_at_6 eq_refl)
               eq_refl).
    reflexivity.
  - rewrite (proj2 (pause_then_play Examples.reverse_at_5 eq_refl) eq_refl).
    + reflexivity.
    + discriminate.
Defined.

(** X16: [play] on a stopped stream starts it with the mode playing: from
    frame [curframe] when the engine plays forward, from the last frame when
    it plays in reverse on an audio with frames. *)
Theorem play_starts_stopped_stream (self : t) :
  OutputStream.stopped (_stream self) = true ->
  (reverse self = false ->
   play self
   = (Returned tt,
      set_stream_state OutputStream.Active (set_mode MODE_PLAYING self))) /\
  (reverse self = true -> AudioData.data (_audio self) <> [] ->
   play self
   = (Returned tt,
      set_stream_state OutputStream.Active
        (set_curframe (AudioData.framecount (audio self) - 1)
           (set_mode MODE_PLAYING self)))).
Proof.
  destruct self as [c lp d m [sr st] a]. intros Hst.
  destruct st; try discriminate.
  split.
  - intros Hrev. transport. unfold reverse, direction in *. cbn in *.
    destruct m; cbn; destruct (d =? -1); try discriminate; reflexivity.
  - intros Hrev Hne. transport. unfold reverse, direction in *. cbn in *.
    destruct m; cbn; destruct (d =? -1); try discriminate;
      rewrite PlaybackEngine.jump_to_end_ok by exact Hne; reflexivity.
Qed.

Lemma play_starts_stopped_stream_witness :
  curframe (snd (play Examples.paused_at_5)) = 7 /\
  _mode (snd (play Examples.paused_at_5)) = MODE_PLAYING /\
  OutputStream.active (_stream (snd (play Examples.paused_at_5))) = true.
Proof.
  rewrite (proj2 (play_starts_stopped_stream Examples.paused_at_5 eq_refl)
             eq_refl).
  - repeat split.
  - discriminate.
Defined.

(** X17: [play] in reverse on an audio without frames raises [ValueError]: the
    mode is already set to playing, but the stopped stream is not
    started. *)
Theorem play_reverse_without_frames (self : t) :
  OutputStream.stopped (_stream self) = true ->
  reverse self = true ->
  AudioData.data (_audio self) = [] ->
  play self = (Raised ValueError, set_mode MODE_PLAYING self).
Proof.
  destruct self as [c lp d m [sr st] a]. intros Hst Hrev Hdata.
  destruct st; try discriminate.
  transport. unfold reverse, direction in *. cbn in *.
  destruct m; cbn; destruct (d =? -1); try discriminate;
    rewrite jump_to_end_empty by exact Hdata; reflexivity.
Qed.

Lemma play_reverse_without_frames_witness :
  play (snd (__init__ Examples.audio0 false true None))
  = (Raised ValueError,
     set_mode MODE_PLAYING (snd (__init__ Examples.audio0 false true None))).
Proof. apply play_reverse_without_frames; reflexivity. Defined.

(** *** Settings *)

(** X18: Setting [reverse] never raises, and reading it back gives the value
    set; position, loop flag, mode and stream are as before. *)
Theorem reverse_setter_round_trip (new_val : bool) (self : t) :
  reverse_setter new_val self
  = (Returned tt, set_direction (if new_val then -1 else 1) self) /\
  reverse (snd (reverse_setter new_val self)) = new_val.
Proof. destruct new_val; split; reflexivity. Qed.

(** X19: A new engine is stopped at frame 0 with the loop flag and the direction
    asked for, on any audio, with or without frames; its frame rate is the
    override unless that is absent or 0, and then the audio's. *)
Theorem init_state (audiodata : AudioData.t) (lp rev : bool)
    (fr_override : option Z) :
  let self := snd (__init__ audiodata lp rev fr_override) in
  fst (__init__ audiodata lp rev fr_override) = Returned tt /\
  curframe self = 0 /\
  _mode self = MODE_STOPPED /\
  loop self = lp /\
  reverse self = rev /\
  (_direction self = 1 \/ _direction self = -1) /\
  OutputStream.stopped (_stream self) = true /\
  audio self = audiodata /\
  framerate self
  = match fr_override with
    | Some 0 | None => AudioData.framerate audiodata
    | Some fr => fr
    end.
Proof.
  cbv zeta. unfold __init__, _set_default_playback_state. run.
  rewrite PlaybackEngine.jump_to_start_ok. cbn.
  destruct rev; cbn; repeat split; auto;
    destruct fr_override as [[| |]|]; reflexivity.
Qed.

(** X20: [play] after the stream ended by itself (the callback raised
    [CallbackStop], the finish hook left the mode stopped): the stream is
    aborted first and then started.  With any other mode the stream that
    ended by itself is not stopped, and [play] does not start it. *)
Theorem play_after_completion (self : t) :
  OutputStream.state (_stream self) = OutputStream.Finished ->
  reverse self = false ->
  (_mode self = MODE_STOPPED ->
   play self
   = (Returned tt,
      set_stream_state OutputStream.Active (set_mode MODE_PLAYING self))) /\
  (_mode self <> MODE_STOPPED ->
   play self = (Returned tt, set_mode MODE_PLAYING self)).
Proof.
  destruct self as [c lp d m [sr st] a]. cbn [_stream OutputStream.state].
  intros -> Hrev. unfold reverse, direction in Hrev. cbn in Hrev.
  split; intros Hm; cbn in Hm.
  - subst m. transport. unfold reverse, direction. cbn.
    destruct (d =? -1); [discriminate|reflexivity].
  - transport. cbn. destruct m; [congruence| |]; reflexivity.
Qed.

Lemma play_after_completion_witness :
  OutputStream.active
    (_stream (snd (play (set_mode MODE_STOPPED Examples.playing_at_5))))
  = true /\
  OutputStream.active (_stream (snd (play Examples.playing_at_5))) = false.
Proof.
  split.
  - rewrite (proj1 (play_after_completion
                      (set_mode MODE_STOPPED Examples.playing_at_5)
                      eq_refl eq_refl) eq_refl).
    reflexivity.
  - rewrite (proj2 (play_after_completion Examples.playing_at_5
                      eq_refl eq_refl)).
    + reflexivity.
    + discriminate.
Defined.

(** *** What the transport operations keep *)

(** X21: Every transport operation keeps a position that is within bounds within
    bounds, whether it returns or raises. *)
Theorem transport_keeps_bounds (self : t) :
  curframe_in_bounds self ->
  curframe_in_bounds (snd (play self)) /\
  curframe_in_bounds (snd (pause self)) /\
  curframe_in_bounds (snd (stop self)) /\
  curframe_in_bounds (snd (jump_to_start self)) /\
  curframe_in_bounds (snd (jump_to_end self)) /\
  (forall frame, curframe_in_bounds (snd (jump_to_frame frame self))) /\
  (forall seconds, curframe_in_bounds (snd (jump seconds self))).
Proof.
  intros H.
  split; [now apply PlaybackEngine.play_in_bounds|].
  split; [now apply PlaybackEngine.pause_in_bounds|].
  split; [now apply PlaybackEngine.stop_in_bounds|].
  split; [now apply PlaybackEngine.jump_to_start_in_bounds|].
  split; [now apply PlaybackEngine.jump_to_end_in_bounds|].
  split; intros.
  - now apply PlaybackEngine.jump_to_frame_in_bounds.
  - now apply PlaybackEngine.jump_in_bounds.
Qed.

Lemma transport_keeps_bounds_witness :
  curframe_in_bounds (snd (play Examples.paused_at_5)) /\
  curframe_in_bounds (snd (jump_to_frame 9 Examples.paused_at_5)).
Proof.
  assert (H : curframe_in_bounds Examples.paused_at_5)
    by (unfold curframe_in_bounds; cbn; lia).
  destruct (transport_keeps_bounds Examples.paused_at_5 H)
    as [Hplay [_ [_ [_ [_ [Hjump _]]]]]].
  split; [exact Hplay|apply Hjump].
Defined.

Import Unchanged.

Lemma keeps_ret {A} (a : A) : keeps_settings (ret a).
Proof. intros self. repeat split. Qed.

Lemma keeps_raise {A} (e : exn) : keeps_settings (@raise t A e).
Proof. intros self. repeat split. Qed.

Lemma keeps_gets {A} (f : t -> A) : keeps_settings (gets f).
Proof. intros self. repeat split. Qed.

Lemma keeps_bind {A B} (m : M t A) (k : A -> M t B) :
  keeps_settings m -> (forall a, keeps_settings (k a)) ->
  keeps_settings (bind m k).
Proof.
  intros Hm Hk self. unfold bind. specialize (Hm self).
  destruct (m self) as [[a|e] self']; cbn [snd] in *; [|exact Hm].
  specialize (Hk a self'). intuition congruence.
Qed.

Lemma keeps_if {A} (b : bool) (m1 m2 : M t A) :
  keeps_settings m1 -> keeps_settings m2 ->
  keeps_settings (if b then m1 else m2).
Proof. now destruct b. Qed.

Lemma keeps_set_mode (v : mode) : keeps_settings (modify (set_mode v)).
Proof. intros self. repeat split. Qed.

Lemma keeps_set_stream_state (v : OutputStream.status) :
  keeps_settings (modify (set_stream_state v)).
Proof. intros self. repeat split. Qed.

Lemma keeps_set_curframe (v : Z) : keeps_settings (modify (set_curframe v)).
Proof. intros self. repeat split. Qed.

Create HintDb settings.
#[local] Hint Resolve keeps_ret keeps_raise keeps_gets keeps_set_mode
  keeps_set_stream_state keeps_set_curframe : settings.
#[local] Hint Extern 2 (keeps_settings (bind _ _)) =>
  apply keeps_bind; [|intro] : settings.
#[local] Hint Extern 2 (keeps_settings (if _ then _ else _)) =>
  apply keeps_if : settings.

Lemma keeps_jump_to_frame (frame : Z) : keeps_settings (jump_to_frame frame).
Proof. unfold jump_to_frame. auto 10 with settings. Qed.

Lemma keeps_stream_stop : keeps_settings stream_stop.
Proof.
  pose proof keeps_jump_to_frame.
  unfold stream_stop, _stop_playback_callback, _set_default_playback_state,
    jump_to_start.
  auto 12 with settings.
Qed.

(** X22: No transport operation and no run of the finish hook changes the loop
    flag, the direction or the audio: those change only through their
    setters. *)
Theorem transport_keeps_settings :
  keeps_settings play /\ keeps_settings pause /\ keeps_settings stop /\
  keeps_settings jump_to_start /\ keeps_settings jump_to_end /\
  (forall frame, keeps_settings (jump_to_frame frame)) /\
  (forall seconds, keeps_settings (jump seconds)) /\
  keeps_settings _stop_playback_callback.
Proof.
  pose proof keeps_jump_to_frame as Hframe.
  pose proof keeps_stream_stop as Hstop.
  assert (Hplay : keeps_settings play)
    by (unfold play, stream_abort, stream_start, jump_to_end;
        auto 14 with settings).
  assert (Hpause : keeps_settings pause)
    by (unfold pause; auto 10 with settings).
  assert (Hstop' : keeps_settings stop)
    by (unfold stop; auto 10 with settings).
  assert (Hend : keeps_settings jump_to_end)
    by (unfold jump_to_end; auto 10 with settings).
  assert (Hjump : forall seconds, keeps_settings (jump seconds))
    by (intros; unfold jump; auto 10 with settings).
  assert (Hhook : keeps_settings _stop_playback_callback)
    by (unfold _stop_playback_callback, _set_default_playback_state,
          jump_to_start; auto 10 with settings).
  exact (conj Hplay (conj Hpause (conj Hstop' (conj (Hframe 0)
           (conj Hend (conj Hframe (conj Hjump Hhook))))))).
Qed.

(** *** After a reverse block that ends on the first frame *)

(** A start of -1 names the last element: the open-ended reverse slice from
    -1 is the whole sequence reversed. *)
Lemma py_slice_from_minus_one (l : list frame) :
  l <> [] -> py_slice l (-1) None (-1) = Returned (rev l).
Proof.
  intros Hne.
  assert (Hlen : 0 < Z.of_nat (length l))
    by (destruct l; [congruence|cbn [length]; lia]).
  assert (E : adjust_index (Z.of_nat (length l)) (-1) (-1)
              = adjust_index (Z.of_nat (length l)) (-1)
                  (Z.of_nat (length l) - 1)).
  { rewrite (adjust_index_in_range (Z.of_nat (length l)) (-1)
               (Z.of_nat (length l) - 1)) by lia.
    unfold adjust_index. cbn [Z.ltb Z.compare].
    destruct (-1 + Z.of_nat (length l) <? 0) eqn:E1; [|lia].
    apply Z.ltb_lt in E1. lia. }
  transitivity (py_slice l (Z.of_nat (length l) - 1) None (-1)).
  - unfold py_slice. cbn [Z.eqb Z.ltb Z.compare]. rewrite E. reflexivity.
  - rewrite py_slice_backward_open by lia. do 2 f_equal.
    replace (Z.to_nat (Z.min (Z.of_nat (length l) - 1)
                         (Z.of_nat (length l) - 1) + 1))
      with (length l) by lia.
    apply firstn_all.
Qed.

(** X23: Two reverse callbacks from frame [block_size - 1] on an audio longer
    than a block: the first delivers the frames down to frame 0 and leaves
    the position at -1; the second then takes the whole audio as its block,
    which does not fit the buffer, and raises [ValueError], changing neither
    the engine nor the buffer. *)
Theorem reverse_past_start_raises (block_size : Z) (self : t)
    (outdata : list frame) :
  _direction self = -1 ->
  curframe self = block_size - 1 ->
  0 < block_size < AudioData.framecount (audio self) ->
  Z.of_nat (length outdata) = block_size ->
  let first := _next_block_callback_with block_size self outdata in
  let second :=
    _next_block_callback_with block_size (cb_self first) (cb_outdata first) in
  first
  = mk_result (set_curframe (-1) self)
      (rev (firstn (Z.to_nat block_size) (AudioData.data (_audio self))))
      None /\
  second
  = mk_result (cb_self first) (cb_outdata first) (Some ValueError).
Proof.
  intros Hdir Hcur Hn Hout first second.
  unfold AudioData.framecount, audio in Hn.
  set (l := AudioData.data (_audio self)) in *.
  assert (Hfirst : first
                   = mk_result (set_curframe (-1) self)
                       (rev (firstn (Z.to_nat block_size) l)) None).
  { unfold first.
    rewrite (callback_full_block block_size self outdata
               (rev (firstn (Z.to_nat block_size) l))
               (curframe self - block_size)).
    - do 2 f_equal. lia.
    - fold l. rewrite Hdir, next_block_reverse_edge by lia.
      do 4 f_equal. lia.
    - list_length. }
  split; [exact Hfirst|].
  unfold second. rewrite Hfirst. cbn [cb_self cb_outdata].
  unfold _next_block_callback_with, get_next_block, is_within_bounds.
  cbn [_audio _direction curframe set_curframe]. fold l. rewrite Hdir.
  assert (E1 : (0 <=? -1 + block_size * -1) = false)
    by (apply Z.leb_gt; lia).
  assert (E2 : (-1 + block_size * -1 =? 0) = false)
    by (apply Z.eqb_neq; lia).
  rewrite E1, E2. cbn [andb negb].
  rewrite py_slice_from_minus_one
    by (intros E; rewrite E in Hn; cbn in Hn; lia).
  assert (E3 : Nat.ltb (length (rev l))
                 (length (rev (firstn (Z.to_nat block_size) l))) = false)
    by (apply Nat.ltb_ge; list_length).
  rewrite E3. unfold np_assign_rows.
  assert (E4 : Nat.eqb (length (rev l))
                 (length (rev (firstn (Z.to_nat block_size) l))) = false)
    by (apply Nat.eqb_neq; list_length).
  rewrite E4.
  destruct (rev l) as [|x [|y r]] eqn:Hrev; try reflexivity.
  apply (f_equal (@length frame)) in Hrev. rewrite length_rev in Hrev.
  cbn in Hrev. lia.
Qed.

Lemma reverse_past_start_raises_witness :
  let first :=
    _next_block_callback_with 3 (set_curframe 2 Examples.reverse_at_5)
      Examples.buffer3 in
  first
  = mk_result (set_curframe (-1) Examples.reverse_at_5)
      [[20; 21]; [10; 11]; [0; 1]] None /\
  _next_block_callback_with 3 (cb_self first) (cb_outdata first)
  = mk_result (cb_self first) (cb_outdata first) (Some ValueError).
Proof.
  apply (reverse_past_start_raises 3 (set_curframe 2 Examples.reverse_at_5)
           Examples.buffer3); cbn; first [reflexivity | lia].
Defined.

End EngineLaws.

(** ** The frame store, further *)

Module StoreLaws.

Import BaseAudioData Unchanged.

(** *** Only the cursor moves *)

Lemma cursor_ret {A} (a : A) : moves_only_cursor (ret a).
Proof.
  intros self. exists (BinaryIO.cursor (source self)).
  destruct self as [[content cursor] p fs ch sw fr fc]. reflexivity.
Qed.

Lemma cursor_gets {A} (f : t -> A) : moves_only_cursor (gets f).
Proof. apply (cursor_ret tt). Qed.

Lemma cursor_lift {A} (o : outcome A) : moves_only_cursor (lift o).
Proof. apply (cursor_ret tt). Qed.

Lemma cursor_bind {A B} (m : M t A) (k : A -> M t B) :
  moves_only_cursor m -> (forall a, moves_only_cursor (k a)) ->
  moves_only_cursor (bind m k).
Proof.
  intros Hm Hk self. unfold bind. destruct (Hm self) as [c1 H1].
  destruct (m self) as [[a|e] self']; cbn [snd] in *.
  - destruct (Hk a self') as [c2 H2]. exists c2. rewrite H2, H1.
    reflexivity.
  - exists c1. exact H1.
Qed.

Lemma cursor_if {A} (b : bool) (m1 m2 : M t A) :
  moves_only_cursor m1 -> moves_only_cursor m2 ->
  moves_only_cursor (if b then m1 else m2).
Proof. now destruct b. Qed.

Lemma cursor_seek (offset whence : Z) :
  moves_only_cursor (on_source (BinaryIO.seek offset whence)).
Proof.
  intros [[content cursor] p fs ch sw fr fc].
  unfold on_source, BinaryIO.seek. cbn.
  repeat match goal with
         | |- context [if ?b then _ else _] => destruct b
         end; cbn; eauto.
Qed.

Lemma cursor_read (size : Z) :
  moves_only_cursor (on_source (BinaryIO.read size)).
Proof. intros [[content cursor] p fs ch sw fr fc]. cbn. eauto. Qed.

Create HintDb cursor.
#[local] Hint Resolve cursor_ret cursor_gets cursor_lift cursor_seek
  cursor_read : cursor.
#[local] Hint Extern 2 (moves_only_cursor (bind _ _)) =>
  apply cursor_bind; [|intro] : cursor.
#[local] Hint Extern 2 (moves_only_cursor (if _ then _ else _)) =>
  apply cursor_if : cursor.

Lemma cursor_move_fileobj_cursor (frame_offset mode : Z) :
  moves_only_cursor (_move_fileobj_cursor frame_offset mode).
Proof.
  unfold _move_fileobj_cursor, discard. auto 10 with cursor.
Qed.

Lemma cursor_create_frame_array (byte_data : list byte) :
  moves_only_cursor (_create_frame_array byte_data).
Proof. intros self. apply (cursor_ret tt). Qed.

Lemma cursor_get_chunk_from_behind (chunk_size : Z) :
  moves_only_cursor (_get_chunk_from_behind chunk_size).
Proof.
  pose proof cursor_move_fileobj_cursor.
  unfold _get_chunk_from_behind.
  apply cursor_bind; [auto with cursor|]. intros p.
  destruct (p - chunk_size <? 0); auto 10 with cursor.
Qed.

(** X24: No public method of the frame store changes anything but the cursor of
    the file object; in particular [position] is the same after [seek],
    [jump], [read] and [read_left] as before, whatever their argument and
    however they end. *)
Theorem public_methods_move_only_cursor :
  (forall k, moves_only_cursor (seek k)) /\
  (forall f, moves_only_cursor (jump f)) /\
  (forall n, moves_only_cursor (read n)) /\
  (forall n, moves_only_cursor (read_left n)) /\
  (forall self f k n,
     position (snd (jump f self)) = position self /\
     position (snd (seek k self)) = position self /\
     position (snd (read n self)) = position self /\
     position (snd (read_left n self)) = position self).
Proof.
  pose proof cursor_move_fileobj_cursor as Hmove.
  pose proof cursor_create_frame_array as Hcreate.
  pose proof cursor_get_chunk_from_behind as Hbehind.
  assert (Hseek : forall k, moves_only_cursor (seek k))
    by (intros; apply Hmove).
  assert (Hjump : forall f, moves_only_cursor (jump f))
    by (intros; apply Hmove).
  assert (Hread : forall n, moves_only_cursor (read n))
    by (intros; unfold read, _get_chunk_from_infront; auto 10 with cursor).
  assert (Hleft : forall n, moves_only_cursor (read_left n))
    by (intros; unfold read_left; auto 10 with cursor).
  split; [exact Hseek|]. split; [exact Hjump|]. split; [exact Hread|].
  split; [exact Hleft|]. intros self f k n.
  destruct (Hjump f self) as [c1 ->]. destruct (Hseek k self) as [c2 ->].
  destruct (Hread n self) as [c3 ->]. destruct (Hleft n self) as [c4 ->].
  split; [|split; [|split]]; reflexivity.
Qed.

(** *** Moving the cursor *)







(** *** Reading *)







(** *** [_move_position] *)



End StoreLaws.
